(** * VMware exit intelligence agent: classification and risk scoring

    A shallow embedding of [agent/analyzer/classifier.py],
    [agent/analyzer/scoring.py] and [agent/analyzer/rules.py], and the
    properties of the Phase 1 contract proved about it.

    Python values are embedded as the type [value]; a VM is the [dict] that
    [RuleEngine.classify] and [score_vm] receive ([Dict[str, Any]]), that is a
    finite map from field names to values.  Code that may raise returns in
    the type [res].

    Integers are unbounded, as in Python.  The limit an interpreter puts on
    the number of digits of an integer that it prints or reads
    ([sys.set_int_max_str_digits]) is not part of [py_str] and [py_int];
    it is modelled apart, by [str_with_limit] and [int_with_limit], and a
    statement that would depend on it bounds the integers it is about. *)

From Stdlib Require Import ZArith Ascii String Lia.
From stdpp Require Import base option list strings gmap pretty.

Set Warnings "-register-all".

Local Open Scope string_scope.
Local Open Scope Z_scope.

(** ** Python values *)

(** A [float] is kept by its exact value [m * 2^e], or is an infinity or a
    NaN.  Only order comparisons against integer constants are made on
    floats, and Python decides those on the exact values. *)
Inductive pyfloat :=
| FNaN
| FInf (negative : bool)
| FFinite (m e : Z).

(** The values a VM field or a rule field can hold: the JSON/YAML universe.
    A [str] is a sequence of code points below 256, one [ascii] each. *)
Inductive value :=
| VNone
| VBool (b : bool)
| VInt (z : Z)
| VFloat (f : pyfloat)
| VStr (s : string)
| VList (l : list value)
| VDict (items : list (string * value)).

(** The VM handed to [classify] and [score_vm] is only read with [get];
    it is a finite map.  A dict that is itself a value keeps its items in
    insertion order, which iteration and [str] observe. *)
Abbreviation dict := (gmap string value).

(** ** Exceptions and results *)

Inductive exn :=
| TypeError
| AttributeError
| IndexError
| ValueError (msg : string)
| RuntimeError (msg : string)
| OSError
| YAMLError.

Inductive res (A : Type) :=
| Ok (a : A)
| Raise (e : exn).
Arguments Ok {A} a.
Arguments Raise {A} e.

Global Instance res_ret : MRet res := fun A a => Ok a.
Global Instance res_bind : MBind res := fun A B f m =>
  match m with
  | Ok a => f a
  | Raise e => Raise e
  end.

(** [try: return body / except Exception: return handler] *)
Definition try_except {A} (body : res A) (handler : A) : A :=
  match body with
  | Ok a => a
  | Raise _ => handler
  end.

(** ** Built-in operations on values *)

(** [vm.get(k)] and [vm.get(k, dflt)] *)
Definition get (d : dict) (k : string) : value := default VNone (d !! k).
Definition get_or (d : dict) (k : string) (dflt : value) : value :=
  default dflt (d !! k).

(** The same on a dict value: the binding of [k] among the items. *)
Fixpoint assoc (items : list (string * value)) (k : string) : option value :=
  match items with
  | [] => None
  | (k', v) :: r => if String.eqb k' k then Some v else assoc r k
  end.


(** Truth value of an object, as [bool(v)]. *)
Definition float_is_zero (f : pyfloat) : bool :=
  match f with
  | FFinite m _ => m =? 0
  | _ => false
  end.

Definition truthy (v : value) : bool :=
  match v with
  | VNone => false
  | VBool b => b
  | VInt z => negb (z =? 0)
  | VFloat f => negb (float_is_zero f)
  | VStr s => negb (String.eqb s "")
  | VList l => match l with [] => false | _ => true end
  | VDict d => match d with [] => false | _ => true end
  end.

(** [a or b] *)
Definition py_or (a b : value) : value := if truthy a then a else b.

(** [v == s] for a string literal [s]: only an equal [str] compares equal. *)
Definition eq_str (v : value) (s : string) : bool :=
  match v with
  | VStr t => String.eqb t s
  | _ => false
  end.

(** Order of a float against an integer; [None] when unordered (NaN). *)
Definition float_cmp_int (f : pyfloat) (c : Z) : option comparison :=
  match f with
  | FNaN => None
  | FInf negative => Some (if negative then Lt else Gt)
  | FFinite m e =>
      Some (if 0 <=? e then (m * 2 ^ e ?= c) else (m ?= c * 2 ^ (- e)))
  end.

(** [v > c] for an integer literal [c]; [bool] is a subclass of [int];
    anything that is not a number raises [TypeError]. *)
Definition py_gt (v : value) (c : Z) : res bool :=
  match v with
  | VBool b => Ok (c <? Z.b2z b)
  | VInt z => Ok (c <? z)
  | VFloat f =>
      Ok (match float_cmp_int f c with Some Gt => true | _ => false end)
  | _ => Raise TypeError
  end.

(** [v <= c] for an integer literal [c]. *)
Definition py_le (v : value) (c : Z) : res bool :=
  match v with
  | VBool b => Ok (Z.b2z b <=? c)
  | VInt z => Ok (z <=? c)
  | VFloat f =>
      Ok (match float_cmp_int f c with
          | Some Lt | Some Eq => true
          | _ => false
          end)
  | _ => Raise TypeError
  end.

(** ** Strings *)

(** [s.lower()] on code points below 256: [A-Z] and the upper-case letters
    of Latin-1 (0xC0 to 0xDE, without the multiplication sign 0xD7). *)
Definition lower_char (a : ascii) : ascii :=
  let n := nat_of_ascii a in
  if ((65 <=? n) && (n <=? 90))%nat
     || ((192 <=? n) && (n <=? 222) && negb (n =? 215))%nat
  then ascii_of_nat (n + 32)
  else a.

Fixpoint lower (s : string) : string :=
  match s with
  | EmptyString => EmptyString
  | String a r => String (lower_char a) (lower r)
  end.

(** [p in s] for strings *)
Fixpoint contains (s p : string) : bool :=
  String.prefix p s ||
  match s with
  | EmptyString => false
  | String _ r => contains r p
  end.

(** [s.split("=", 1)]: at most one split, at the first ["="]. *)
Fixpoint split_eq_once (s : string) : list string :=
  match s with
  | EmptyString => [EmptyString]
  | String a r =>
      if Ascii.eqb a "="%char then [EmptyString; r]
      else match split_eq_once r with
           | h :: t => String a h :: t
           | [] => []
           end
  end.

(** [sep.join(l)] *)
Fixpoint join (sep : string) (l : list string) : string :=
  match l with
  | [] => ""
  | [x] => x
  | x :: r => x +:+ sep +:+ join sep r
  end.

(** *** [int(s)] on a [str]

    Optional white space, an optional sign, decimal digits with single
    underscores allowed between digits, optional white space.  White space
    is what CPython's integer parser skips: the six ASCII white-space
    characters, and 0x85 and 0xA0, which are turned into a space first. *)
Definition is_space (a : ascii) : bool :=
  let n := nat_of_ascii a in
  (((9 <=? n) && (n <=? 13)) || (n =? 32) || (n =? 133) || (n =? 160))%nat.

Definition digit_of (a : ascii) : option Z :=
  let n := nat_of_ascii a in
  if ((48 <=? n) && (n <=? 57))%nat then Some (Z.of_nat n - 48) else None.

Fixpoint skip_space (s : string) : string :=
  match s with
  | String a r => if is_space a then skip_space r else s
  | EmptyString => EmptyString
  end.

(** The digits: [acc] is the value so far, [prev_us] says that the last
    character was an underscore.  Returns the value and what follows. *)
Fixpoint scan_digits (s : string) (acc : Z) (prev_us : bool)
  : option (Z * string) :=
  match s with
  | EmptyString => if prev_us then None else Some (acc, EmptyString)
  | String a r =>
      match digit_of a with
      | Some d => scan_digits r (10 * acc + d) false
      | None =>
          if Ascii.eqb a "_"%char then
            if prev_us then None else scan_digits r acc true
          else if prev_us then None else Some (acc, s)
      end
  end.

Definition parse_unsigned (s : string) : option Z :=
  match s with
  | String a _ =>
      match digit_of a with
      | Some _ =>
          match scan_digits s 0 false with
          | Some (n, rest) =>
              match skip_space rest with
              | EmptyString => Some n
              | _ => None
              end
          | None => None
          end
      | None => None
      end
  | EmptyString => None
  end.

Definition parse_int (s : string) : option Z :=
  match skip_space s with
  | String "+" r => parse_unsigned r
  | String "-" r => Z.opp <$> parse_unsigned r
  | t => parse_unsigned t
  end.

(** [int(s)]: [ValueError] on anything that is not an integer literal.  A
    literal is read whatever its number of digits; what the interpreter's
    limit on them refuses is [int_with_limit]'s. *)
Definition py_int (s : string) : res Z :=
  match parse_int s with
  | Some n => Ok n
  | None => Raise (ValueError "invalid literal for int() with base 10")
  end.

(** [v.lower()]: a method of [str] only, as [startswith] and [split]. *)
Definition method_lower (v : value) : res string :=
  match v with
  | VStr s => Ok (lower s)
  | _ => Raise AttributeError
  end.

(** [l[1]] *)
Definition index1 {A} (l : list A) : res A :=
  match l !! 1%nat with
  | Some x => Ok x
  | None => Raise IndexError
  end.

(** The elements a [for] loop visits: a list gives its elements, a [str]
    its characters, a dict its keys; nothing else is iterable. *)
Definition py_iter (v : value) : res (list value) :=
  match v with
  | VList l => Ok l
  | VStr s => Ok ((fun a => VStr (String a "")) <$> list_ascii_of_string s)
  | VDict items => Ok ((fun kv => VStr kv.1) <$> items)
  | _ => Raise TypeError
  end.

(** ** The interpreter and the libraries

    What the program takes from outside the repository and this
    development leaves open: how a float and a container print, in which
    order a set prints, the conversion [float(v)] (with its rounding and
    its errors), [==] and [in] on arbitrary values, the file system and the
    YAML and JSON parsers. *)
Class Interp := {
  float_repr : pyfloat -> string;
  container_repr : value -> string;
  set_repr : list string -> string;
  py_float : value -> res pyfloat;
  py_eq : value -> value -> bool;
  py_in : value -> value -> res bool;
  read_text : string -> res string;
  _HAS_YAML : bool;
  yaml_safe_load : string -> res value;
  json_loads : string -> res value;
}.

Section Program.
Context `{!Interp}.

(** [str(v)], which is also what an f-string field [{v}] prints.  An
    integer is printed whatever its number of digits; what the
    interpreter's limit on them refuses is [str_with_limit]'s. *)
Definition py_str (v : value) : string :=
  match v with
  | VNone => "None"
  | VBool true => "True"
  | VBool false => "False"
  | VInt z => pretty z
  | VFloat f => float_repr f
  | VStr s => s
  | VList _ | VDict _ => container_repr v
  end.

(** ** rules.py *)

(** [load_rules(path)] *)
Definition load_rules (path : string) : res (list value) :=
  text ← read_text path;
  data ← (if _HAS_YAML then yaml_safe_load text
          else match json_loads text with
               | Ok d => Ok d
               | Raise _ =>
                   Raise (RuntimeError
                     "PyYAML is not installed and rules file is not valid JSON.
Install PyYAML (pip install PyYAML) to load YAML rules.")
               end);
  match data with
  | VList l => Ok l
  | _ => Raise (ValueError "Rules file must be a YAML/JSON list of rules")
  end.

(** ** classifier.py *)

(** Order of two floats; [None] when unordered. *)
Definition float_cmp (x y : pyfloat) : option comparison :=
  match x, y with
  | FNaN, _ | _, FNaN => None
  | FInf a, FInf b =>
      Some (if a then (if b then Eq else Lt) else (if b then Gt else Eq))
  | FInf a, FFinite _ _ => Some (if a then Lt else Gt)
  | FFinite _ _, FInf b => Some (if b then Gt else Lt)
  | FFinite m e, FFinite m' e' =>
      let k := Z.min e e' in
      Some (m * 2 ^ (e - k) ?= m' * 2 ^ (e' - k))
  end.

(** [try: return float(a) <op> float(b) / except Exception: return False] *)
Definition float_test (test : comparison -> bool) (a b : value) : bool :=
  try_except
    (x ← py_float a;
     y ← py_float b;
     Ok (match float_cmp x y with Some c => test c | None => false end))
    false.

(** [vm.get(field)] for a key that is any value: the keys of a VM are
    strings; a list or a dict is not hashable. *)
Definition get_value (vm : dict) (field : value) : res value :=
  match field with
  | VStr k => Ok (get vm k)
  | VList _ | VDict _ => Raise TypeError
  | _ => Ok VNone
  end.

(** [_eval_condition(vm, cond)] *)
Definition _eval_condition (vm cond : dict) : res bool :=
  let field := get cond "field" in
  let op := get cond "op" in
  let val := get cond "value" in
  vm_val ← get_value vm field;
  if eq_str op "contains" then
    s ← method_lower (py_or vm_val (VStr ""));
    Ok (contains s (lower (py_str val)))
  else if eq_str op "eq" then Ok (py_eq vm_val val)
  else if eq_str op "neq" then Ok (negb (py_eq vm_val val))
  else if eq_str op "gt" then
    Ok (float_test (fun c => match c with Gt => true | _ => false end)
          vm_val val)
  else if eq_str op "gte" then
    Ok (float_test (fun c => match c with Lt => false | _ => true end)
          vm_val val)
  else if eq_str op "lt" then
    Ok (float_test (fun c => match c with Lt => true | _ => false end)
          vm_val val)
  else if eq_str op "lte" then
    Ok (float_test (fun c => match c with Gt => false | _ => true end)
          vm_val val)
  else if eq_str op "in" then py_in vm_val val
  else if eq_str op "not_in" then b ← py_in vm_val val; Ok (negb b)
  else Raise (ValueError ("Unknown operator: " +:+ py_str op)).

Definition decision : Type := string * string * string * string.

Definition category (d : decision) : string := d.1.1.1.
Definition confidence (d : decision) : string := d.1.1.2.
Definition rule_name (d : decision) : string := d.1.2.
Definition reason (d : decision) : string := d.2.

Record RuleEngine := { rules : list value }.

Definition ALLOWED_CATEGORIES : list string :=
  ["rehost"; "refactor_candidate"; "retire"; "keep"].
Definition ALLOWED_CONFIDENCES : list string := ["low"; "medium"; "high"].

(** [x in S] for one of the two sets above *)
Definition in_set (x : string) (S : list string) : bool :=
  existsb (String.eqb x) S.

(** [r.get(k, dflt)] on a rule: only a dict has [get]. *)
Definition rule_get (r : value) (k : string) (dflt : value) : res value :=
  match r with
  | VDict items => Ok (default dflt (assoc items k))
  | _ => Raise AttributeError
  end.

Definition invalid_category_msg (name : value) (cat : string) : string :=
  "Rule '" +:+ py_str name +:+ "' has invalid category '" +:+ cat +:+
  "'. Allowed: " +:+ set_repr ALLOWED_CATEGORIES.

Definition invalid_confidence_msg (name : value) (conf : string) : string :=
  "Rule '" +:+ py_str name +:+ "' has invalid confidence '" +:+ conf +:+
  "'. Allowed: " +:+ set_repr ALLOWED_CONFIDENCES.

(** The body of the loop of [_validate_rules], for one rule [r]. *)
Definition validate_rule (r : value) : res unit :=
  c ← rule_get r "category" (VStr "");
  cat ← method_lower c;
  cf ← rule_get r "confidence" (VStr "");
  let conf := lower (py_str cf) in
  if negb (in_set cat ALLOWED_CATEGORIES) then
    name ← rule_get r "name" VNone;
    Raise (ValueError (invalid_category_msg name cat))
  else if negb (in_set conf ALLOWED_CONFIDENCES) then
    name ← rule_get r "name" VNone;
    Raise (ValueError (invalid_confidence_msg name conf))
  else Ok ().

Fixpoint validate_loop (rs : list value) : res unit :=
  match rs with
  | [] => Ok ()
  | r :: rest => _ ← validate_rule r; validate_loop rest
  end.

(** [RuleEngine._validate_rules(self)] *)
Definition _validate_rules (self : RuleEngine) : res unit :=
  validate_loop (rules self).

(** [RuleEngine.__init__(self, rules_path)]: the engine, once built. *)
Definition RuleEngine_init (rules_path : string) : res RuleEngine :=
  rs ← load_rules rules_path;
  let self := {| rules := rs |} in
  _ ← _validate_rules self;
  Ok self.

(** The loop of [_extract_powered_off_days]: the first tag that starts
    with the key decides, whether its value parses or not; a tag that is
    not a [str] has no [startswith]. *)
Fixpoint extract_loop (ts : list value) : res Z :=
  match ts with
  | [] => Ok 0
  | t :: rest =>
      match t with
      | VStr s =>
          if String.prefix "powered_off_days=" s then
            Ok (try_except (part ← index1 (split_eq_once s); py_int part) 0)
          else extract_loop rest
      | _ => Raise AttributeError
      end
  end.

(** [RuleEngine._extract_powered_off_days(self, tags)] *)
Definition _extract_powered_off_days (self : RuleEngine) (tags : value)
  : res Z :=
  ts ← py_iter tags;
  extract_loop ts.

(** Priority 1, zombie detection: the decision, or [None] to go on. *)
Definition zombie_reason (powered_off_days : Z) : string :=
  "Powered off for " +:+ pretty powered_off_days +:+
  " days; requires decommission".

Definition zombie_tier (self : RuleEngine) (vm : dict)
  : res (option decision) :=
  if eq_str (get vm "power_state") "poweredOff" then
    powered_off_days ←
      _extract_powered_off_days self (get_or vm "tags" (VList []));
    if negb (powered_off_days =? 0) && (60 <? powered_off_days) then
      Ok (Some ("retire", "high", "zombie-detection",
                zombie_reason powered_off_days))
    else Ok None
  else Ok None.

(** [(vm.get("guest_os") or "").lower()] *)
Definition guest_os_lower (vm : dict) : res string :=
  method_lower (py_or (get vm "guest_os") (VStr "")).

(** Priority 2, legacy OS detection. *)
Definition legacy_patterns : list (string * string) :=
  [("2008",
    "Windows Server 2008 legacy OS requires on-premises infrastructure");
   ("2003",
    "Windows Server 2003 legacy OS requires on-premises infrastructure");
   ("rhel 6", "RHEL 6 legacy OS not supported in cloud targets");
   ("centos 6", "CentOS 6 legacy OS not supported in cloud targets")].

Fixpoint legacy_loop (guest_os : string) (ps : list (string * string))
  : option decision :=
  match ps with
  | [] => None
  | (pattern, why) :: rest =>
      if contains guest_os pattern
      then Some ("keep", "high", "legacy-os-detection", why)
      else legacy_loop guest_os rest
  end.

Definition legacy_tier (guest_os : string) : option decision :=
  legacy_loop guest_os legacy_patterns.

(** Priority 3, complex or stateful workloads: the list [rehost_reasons]
    as the four checks leave it. *)
Definition snapshot_fragment (vm : dict) : string :=
  "Complex snapshot state (" +:+ py_str (get vm "snapshot_count") +:+
  " snapshots) requires stateful rehost".

Definition nics_fragment (vm : dict) : string :=
  "Multi-NIC configuration (" +:+ py_str (get vm "nics") +:+
  " NICs) requires careful networking planning".

Definition tools_fragment (vm : dict) : string :=
  "VMware Tools " +:+ py_str (get_or vm "tools_status" (VStr "unknown")) +:+
  " indicates operational complexity".

Definition disk_fragment (vm : dict) : string :=
  "Large disk footprint (" +:+ py_str (get vm "disk_gb") +:+
  " GB) suggests stateful workload".

(** [if c: l.append(x)] *)
Definition append_if (c : bool) (l : list string) (x : string)
  : list string :=
  if c then (l ++ [x])%list else l.

Definition rehost_reasons (vm : dict) : res (list string) :=
  let reasons := [] in
  c ← py_gt (get_or vm "snapshot_count" (VInt 0)) 5;
  let reasons := append_if c reasons (snapshot_fragment vm) in
  c ← py_gt (get_or vm "nics" (VInt 0)) 3;
  let reasons := append_if c reasons (nics_fragment vm) in
  let c := negb (eq_str (get vm "tools_status") "running") in
  let reasons := append_if c reasons (tools_fragment vm) in
  c ← py_gt (get_or vm "disk_gb" (VInt 0)) 300;
  let reasons := append_if c reasons (disk_fragment vm) in
  Ok reasons.

Definition rehost_tier (vm : dict) : res (option decision) :=
  reasons ← rehost_reasons vm;
  match reasons with
  | [] => Ok None
  | _ =>
      Ok (Some ("rehost",
                if (1 <? length reasons)%nat then "high" else "medium",
                "workload-complexity",
                join "; " reasons))
  end.

(** Priority 4, conservative refactor_candidate eligibility. *)
Definition is_linux (guest_os : string) : bool :=
  contains guest_os "linux"
  || existsb (contains guest_os) ["rhel"; "centos"; "ubuntu"; "debian"].

(** [if c: risk_signals += 1] *)
Definition bump_if (c : bool) (n : Z) : Z := if c then n + 1 else n.

Definition risk_signals (vm : dict) : res Z :=
  let n := 0 in
  c ← py_gt (get_or vm "snapshot_count" (VInt 0)) 0;
  let n := bump_if c n in
  c ← py_gt (get_or vm "avg_cpu_usage_pct" (VInt 0)) 70;
  let n := bump_if c n in
  c ← py_gt (get_or vm "avg_mem_usage_pct" (VInt 0)) 70;
  let n := bump_if c n in
  c ← py_gt (get_or vm "uptime_days" (VInt 0)) 365;
  let n := bump_if c n in
  Ok n.

(** [a and b], where [b] is evaluated only when [a] holds *)
Definition and_then (a : bool) (b : res bool) : res bool :=
  if a then b else Ok false.

Definition refactor_tier (vm : dict) (guest_os : string)
  : res (option decision) :=
  small ← and_then (is_linux guest_os)
            (c ← py_le (get_or vm "nics" (VInt 1)) 1;
             and_then c (py_le (get_or vm "disk_gb" (VInt 0)) 100));
  if small : bool then
    n ← risk_signals vm;
    if n =? 0 then
      Ok (Some ("refactor_candidate", "medium", "conservative-refactor",
                "Linux; low risk profile; single NIC; small disk; eligible for containerization"))
    else Ok None
  else Ok None.

(** Priority 5, the default. *)
Definition default_decision : decision :=
  ("keep", "medium", "default-conservative",
   "Conservative default: keep on-premises").

(** [RuleEngine.classify(self, vm)]: the five tiers in order, the first
    that decides returns. *)
Definition classify (self : RuleEngine) (vm : dict) : res decision :=
  z ← zombie_tier self vm;
  match z with
  | Some d => Ok d
  | None =>
      guest_os ← guest_os_lower vm;
      match legacy_tier guest_os with
      | Some d => Ok d
      | None =>
          r ← rehost_tier vm;
          match r with
          | Some d => Ok d
          | None =>
              f ← refactor_tier vm guest_os;
              match f with
              | Some d => Ok d
              | None => Ok default_decision
              end
          end
      end
  end.

(** ** scoring.py *)

(** [if c: score += w; trace.append(t)] *)
Definition signal (c : bool) (w : Z) (t : string) (st : Z * list string)
  : Z * list string :=
  if c then (st.1 + w, (st.2 ++ [t])%list) else st.

Definition legacy_tokens : list string := ["2008"; "2003"; "rhel 6"; "centos 6"].

(** [a or b], where [b] is evaluated only when [a] fails *)
Definition or_else (a : bool) (b : res bool) : res bool :=
  if a then Ok true else b.

(** The two clamps at the end of [score_vm]. *)
Definition clamp (score : Z) : Z :=
  let score := if 100 <? score then 100 else score in
  let score := if score <? 0 then 0 else score in
  score.

(** The score and the trace before the clamps. *)
Definition raw_score (vm : dict) : res (Z * list string) :=
  let st := (0, []) in
  c ← py_gt (get_or vm "snapshot_count" (VInt 0)) 5;
  let st := signal c 20 "snapshot_count>5:+20" st in
  c ← py_gt (get_or vm "max_snapshot_age_days" (VInt 0)) 30;
  let st := signal c 15 "max_snapshot_age_days>30:+15" st in
  guest ← method_lower (py_or (get vm "guest_os") (VStr ""));
  let st := signal (existsb (contains guest) legacy_tokens) 25
              "guest_os_legacy:+25" st in
  let st := signal (negb (eq_str (get vm "tools_status") "running")) 10
              "tools_status_not_running:+10" st in
  c ← py_gt (get_or vm "nics" (VInt 0)) 3;
  let st := signal c 10 "nics>3:+10" st in
  c ← (a ← py_gt (get_or vm "avg_cpu_usage_pct" (VInt 0)) 80;
       or_else a (py_gt (get_or vm "avg_mem_usage_pct" (VInt 0)) 80));
  let st := signal c 15 "high_avg_usage:+15" st in
  c ← py_gt (get_or vm "uptime_days" (VInt 0)) 365;
  let st := signal c 10 "uptime_days>365:+10" st in
  Ok st.

(** [score_vm(vm)] *)
Definition score_vm (vm : dict) : res (Z * list string) :=
  '(score, trace) ← raw_score vm;
  Ok (clamp score, trace).

(** [risk_level(score)] *)
Definition risk_level (score : Z) : string :=
  if score <=? 29 then "Low"
  else if score <=? 69 then "Medium"
  else "High".

End Program.

(** ** Vocabulary of the statements *)

(** A field that holds a number, or is absent (every [get] on a numeric
    field defaults to an integer). *)
Definition is_number (v : value) : bool :=
  match v with
  | VBool _ | VInt _ | VFloat _ => true
  | _ => false
  end.

Definition is_str (v : value) : bool :=
  match v with
  | VStr _ => true
  | _ => false
  end.

Definition number_or_absent (vm : dict) (k : string) : bool :=
  match vm !! k with
  | None => true
  | Some v => is_number v
  end.

Definition str_or_absent (vm : dict) (k : string) : bool :=
  match vm !! k with
  | None => true
  | Some v => is_str v
  end.

Definition str_list_or_absent (vm : dict) (k : string) : bool :=
  match vm !! k with
  | None => true
  | Some (VList l) => forallb is_str l
  | Some _ => false
  end.

Definition numeric_fields : list string :=
  ["snapshot_count"; "nics"; "disk_gb"; "max_snapshot_age_days";
   "avg_cpu_usage_pct"; "avg_mem_usage_pct"; "uptime_days"].

(** A VM whose numeric fields hold numbers, whose guest OS is a string and
    whose tags are a list of strings, each of them possibly absent.  Every
    record that passes [VMModel] is one. *)
Definition conforms (vm : dict) : bool :=
  forallb (number_or_absent vm) numeric_fields
  && str_or_absent vm "guest_os"
  && str_list_or_absent vm "tags".

(** A tag that is a string and does not start with the key. *)
Definition other_tag (t : value) : Prop :=
  exists u, t = VStr u /\ String.prefix "powered_off_days=" u = false.

(** [s] is the value part of the first tag of [ts] that starts with the
    key, the tags before it being strings. *)
Definition first_days_tag (ts : list value) (s : string) : Prop :=
  exists pre post,
    ts = (pre ++ VStr ("powered_off_days=" +:+ s) :: post)%list
    /\ Forall other_tag pre.

(** The value [int] gives to the value part of a tag, 0 when it has none. *)
Definition days_of (s : string) : Z :=
  match parse_int s with
  | Some n => n
  | None => 0
  end.

(** Some tag of the VM is [powered_off_days=<integer>] with an integer
    above 60: the criterion of the zombie tier in the words of the
    specification. *)
Definition days_tag_above_60 (vm : dict) : Prop :=
  exists l s n,
    get_or vm "tags" (VList []) = VList l
    /\ In (VStr ("powered_off_days=" +:+ s)) l
    /\ parse_int s = Some n
    /\ 60 < n.

(** A category and a confidence of the closed vocabularies. *)
Definition closed_vocabulary (d : decision) : Prop :=
  In (category d) ["rehost"; "refactor_candidate"; "retire"; "keep"]
  /\ In (confidence d) ["high"; "medium"; "low"].

(** The five shapes of a decision. *)
Definition five_shapes (d : decision) : Prop :=
  let shape := (category d, confidence d, rule_name d) in
  shape = ("retire", "high", "zombie-detection")
  \/ shape = ("keep", "high", "legacy-os-detection")
  \/ shape = ("rehost", "medium", "workload-complexity")
  \/ shape = ("rehost", "high", "workload-complexity")
  \/ shape = ("refactor_candidate", "medium", "conservative-refactor")
  \/ shape = ("keep", "medium", "default-conservative").


Section Vocabulary.
Context `{!Interp}.






(** What the parser made of the file at [path]. *)
Definition parsed (path : string) (data : value) : Prop :=
  exists text,
    read_text path = Ok text
    /\ (if _HAS_YAML then yaml_safe_load text else json_loads text) = Ok data.

(** The tier that decided, for a classification that returned. *)
Inductive decided_by (self : RuleEngine) (vm : dict) (d : decision) : Prop :=
| by_zombie :
    zombie_tier self vm = Ok (Some d) -> decided_by self vm d
| by_legacy g :
    zombie_tier self vm = Ok None -> guest_os_lower vm = Ok g ->
    legacy_tier g = Some d -> decided_by self vm d
| by_rehost g :
    zombie_tier self vm = Ok None -> guest_os_lower vm = Ok g ->
    legacy_tier g = None -> rehost_tier vm = Ok (Some d) ->
    decided_by self vm d
| by_refactor g :
    zombie_tier self vm = Ok None -> guest_os_lower vm = Ok g ->
    legacy_tier g = None -> rehost_tier vm = Ok None ->
    refactor_tier vm g = Ok (Some d) -> decided_by self vm d
| by_default g :
    zombie_tier self vm = Ok None -> guest_os_lower vm = Ok g ->
    legacy_tier g = None -> rehost_tier vm = Ok None ->
    refactor_tier vm g = Ok None -> d = default_decision ->
    decided_by self vm d.

(** The zombie tier as the specification words it: the decision is
    (retire, high, zombie-detection) exactly when the record is poweredOff
    and some tag is [powered_off_days=<integer>] with an integer above 60. *)
Definition zombie_iff_some_tag (self : RuleEngine) (vm : dict) : Prop :=
  (exists rsn,
     classify self vm = Ok ("retire", "high", "zombie-detection", rsn))
  <-> eq_str (get vm "power_state") "poweredOff" = true
      /\ days_tag_above_60 vm.

End Vocabulary.

(** ** Sample data *)

(** A catalog of two rules, in mixed case. *)
Definition sample_rules : list value :=
  [VDict [("name", VStr "zombie-detection"); ("category", VStr "retire");
          ("confidence", VStr "high")];
   VDict [("name", VStr "legacy-os-detection"); ("category", VStr "Keep");
          ("confidence", VStr "HIGH")]].

(** An interpreter to run the examples with; they print no float and no
    container, and read no file but [rules.yaml], which holds the catalog,
    and [broken.yaml], which holds a mapping instead of a list. *)
Definition sample_interp : Interp := {|
  float_repr := fun _ => "nan";
  container_repr := fun _ => "[]";
  set_repr := fun l => "{" +:+ join ", " l +:+ "}";
  py_float := fun v =>
    match v with
    | VInt z => Ok (FFinite z 0)
    | VFloat f => Ok f
    | VBool b => Ok (FFinite (Z.b2z b) 0)
    | VStr _ => Raise (ValueError "could not convert string to float")
    | _ => Raise TypeError
    end;
  py_eq := fun a b =>
    match a, b with
    | VStr s, VStr t => String.eqb s t
    | VInt x, VInt y => x =? y
    | VNone, VNone => true
    | _, _ => false
    end;
  py_in := fun _ _ => Raise TypeError;
  read_text := fun path =>
    if String.eqb path "rules.yaml" then Ok "rules"
    else if String.eqb path "broken.yaml" then Ok "broken"
    else Raise OSError;
  _HAS_YAML := true;
  yaml_safe_load := fun text =>
    if String.eqb text "rules" then Ok (VList sample_rules)
    else if String.eqb text "broken" then
      Ok (VDict [("rules", VList sample_rules)])
    else Raise YAMLError;
  json_loads := fun _ => Raise (ValueError "not JSON");
|}.

Definition sample_engine : RuleEngine := {| rules := sample_rules |}.

(** The VM of the contract tests: powered on, Ubuntu, nothing unusual. *)
Definition plain_fields : list (string * value) :=
  [("vm_id", VStr "vm-001"); ("name", VStr "plain");
   ("power_state", VStr "poweredOn"); ("cpu", VInt 2);
   ("memory_mb", VInt 4096); ("disk_gb", VInt 50);
   ("guest_os", VStr "Ubuntu 20.04"); ("tools_status", VStr "running");
   ("nics", VInt 1); ("snapshot_count", VInt 0);
   ("max_snapshot_age_days", VInt 0); ("avg_cpu_usage_pct", VInt 10);
   ("avg_mem_usage_pct", VInt 10); ("uptime_days", VInt 1);
   ("tags", VList [])].

(** [{**plain, **changes}] *)
Definition vm_with (changes : list (string * value)) : dict :=
  list_to_map (changes ++ plain_fields)%list.

Definition plain_vm : dict := vm_with [].

(** Powered off, a malformed days tag first and a well-formed one after. *)
Definition two_tags_vm : dict :=
  vm_with [("power_state", VStr "poweredOff");
           ("tags", VList [VStr "powered_off_days=bad";
                           VStr "powered_off_days=120"])].

(** Scenario 1: a zombie. *)
Definition zombie_vm : dict :=
  vm_with [("power_state", VStr "poweredOff");
           ("guest_os", VStr "Ubuntu 18.04");
           ("tags", VList [VStr "powered_off_days=120"])].

(** Scenario 3: eight snapshots and four NICs. *)
Definition complex_vm : dict :=
  vm_with [("snapshot_count", VInt 8); ("nics", VInt 4)].

(** Scenario 5: Fedora with one snapshot. *)
Definition fedora_vm : dict :=
  vm_with [("guest_os", VStr "Fedora 34"); ("disk_gb", VInt 80);
           ("snapshot_count", VInt 1)].

(** Scenario 6: every scoring signal fires. *)
Definition all_signals_vm : dict :=
  vm_with [("snapshot_count", VInt 8); ("max_snapshot_age_days", VInt 40);
           ("guest_os", VStr "RHEL 6"); ("tools_status", VStr "notRunning");
           ("nics", VInt 5); ("avg_cpu_usage_pct", VInt 90);
           ("uptime_days", VInt 400)].

(** A snapshot count that is not a number. *)
Definition malformed_vm : dict :=
  vm_with [("snapshot_count", VStr "many")].

(** The condition [snapshot_count > 5] for the generic evaluator. *)
Definition snapshot_cond : dict :=
  list_to_map [("field", VStr "snapshot_count"); ("op", VStr "gt");
               ("value", VInt 5)].

(** * The rest of the program *)

(** ** models.py *)

(** White space as [str.strip] sees it, among the code points below 256:
    tab to carriage return, the four separators 0x1C to 0x1F, the space,
    0x85 and 0xA0. *)
Definition is_whitespace (a : ascii) : bool :=
  let n := nat_of_ascii a in
  (((9 <=? n) && (n <=? 13)) || ((28 <=? n) && (n <=? 32))
   || (n =? 133) || (n =? 160))%nat.

Fixpoint lstrip (s : string) : string :=
  match s with
  | EmptyString => EmptyString
  | String a r => if is_whitespace a then lstrip r else s
  end.

Fixpoint rstrip (s : string) : string :=
  match s with
  | EmptyString => EmptyString
  | String a r =>
      match rstrip r with
      | EmptyString => if is_whitespace a then EmptyString else String a ""
      | r' => String a r'
      end
  end.

(** [s.strip()] *)
Definition strip (s : string) : string := rstrip (lstrip s).

(** The validation that [VMModel] inherits from pydantic's [BaseModel]:
    from the keyword data to the fields of the model, or an error. *)
Class Pydantic := {
  BaseModel_init : dict -> res dict;
}.

(** [if k in data and isinstance(data[k], str): data[k] = data[k].strip()] *)
Definition strip_field (k : string) (data : dict) : dict :=
  match data !! k with
  | Some (VStr s) => <[k := VStr (strip s)]> data
  | _ => data
  end.

(** [VMModel.__init__(self, **data)]: the fields of the model. *)
Definition VMModel_init `{!Pydantic} (data : dict) : res dict :=
  let data := strip_field "vm_id" data in
  let data := strip_field "name" data in
  BaseModel_init data.

(** ** reporter/md_report.py *)

Module MdReport.

(** The loop of [_extract_powered_off_days] of the report. *)
Fixpoint extract_loop (ts : list value) : res Z :=
  match ts with
  | [] => Ok 0
  | t :: rest =>
      match t with
      | VStr s =>
          if String.prefix "powered_off_days=" s then
            Ok (try_except (part ← index1 (split_eq_once s); py_int part) 0)
          else extract_loop rest
      | _ => Raise AttributeError
      end
  end.

(** [_extract_powered_off_days(tags)], the function of the report module *)
Definition _extract_powered_off_days (tags : value) : res Z :=
  ts ← py_iter tags;
  extract_loop ts.

End MdReport.

(** ** Vocabulary of the further statements *)

(** The fields that [classify] reads besides the tags, and the fields that
    [score_vm] reads. *)
Definition classify_fields : list string :=
  ["power_state"; "guest_os"; "snapshot_count"; "nics"; "tools_status";
   "disk_gb"; "avg_cpu_usage_pct"; "avg_mem_usage_pct"; "uptime_days"].

Definition score_fields : list string :=
  ["snapshot_count"; "max_snapshot_age_days"; "guest_os"; "tools_status";
   "nics"; "avg_cpu_usage_pct"; "avg_mem_usage_pct"; "uptime_days"].

(** Two VMs that hold the same under every key of [ks]. *)
Definition agree_on (ks : list string) (vm vm' : dict) : Prop :=
  forall k, In k ks -> vm !! k = vm' !! k.

(** The seven trace entries in the order of the checks, with the weight
    each one stands for. *)
Definition signal_table : list (string * Z) :=
  [("snapshot_count>5:+20", 20); ("max_snapshot_age_days>30:+15", 15);
   ("guest_os_legacy:+25", 25); ("tools_status_not_running:+10", 10);
   ("nics>3:+10", 10); ("high_avg_usage:+15", 15);
   ("uptime_days>365:+10", 10)].

Fixpoint weight_in (table : list (string * Z)) (entry : string) : Z :=
  match table with
  | [] => 0
  | (e, w) :: rest => if String.eqb e entry then w else weight_in rest entry
  end.

Definition trace_weight (trace : list string) : Z :=
  foldr (fun entry acc => weight_in signal_table entry + acc) 0 trace.


(** A value that can be a dictionary key. *)
Definition hashable (v : value) : bool :=
  match v with
  | VList _ | VDict _ => false
  | _ => true
  end.

(** What [strip_field] leaves under a key. *)
Definition stripped (v : option value) : option value :=
  match v with
  | Some (VStr s) => Some (VStr (strip s))
  | other => other
  end.

(** [b] is what [m] returns, negated; an error stays. *)
Definition negated (m : res bool) : res bool :=
  match m with
  | Ok b => Ok (negb b)
  | Raise e => Raise e
  end.

(** ** The interpreter's limit on the digits of an integer *)

(** CPython refuses, with a ValueError, to print or to read an integer of
    more than [limit] decimal digits, where [limit] is what
    [sys.get_int_max_str_digits()] returns: 4300 unless it was set, 0 for
    no limit.  Conversions of 640 digits or fewer are never refused. *)
Definition exceeds_limit (limit : Z) (digits : nat) : bool :=
  (0 <? limit) && (limit <? Z.of_nat digits) && (640 <? Z.of_nat digits).

Definition is_digit (a : ascii) : bool :=
  match digit_of a with
  | Some _ => true
  | None => false
  end.

Fixpoint count_digits (s : string) : nat :=
  match s with
  | EmptyString => 0%nat
  | String a r => if is_digit a then S (count_digits r) else count_digits r
  end.

(** [int(s)] under the limit; [None] is its ValueError. *)
Definition int_with_limit (limit : Z) (s : string) : option Z :=
  match parse_int s with
  | Some n => if exceeds_limit limit (count_digits s) then None else Some n
  | None => None
  end.


(** An integer of at most 640 digits. *)
Definition small_int (z : Z) : bool := Z.abs z <? 10 ^ 640.




(** Sample data for the further statements. *)
Definition sample_pydantic : Pydantic := {|
  BaseModel_init := fun data =>
    match data !! "vm_id" with
    | Some (VStr _) => Ok data
    | _ => Raise (ValueError "vm_id: Field required")
    end;
|}.

(** A VM as the inventory file gives it, with padded identifier and name. *)
Definition padded_item : dict :=
  <["vm_id" := VStr "  vm-001 "]> (<["name" := VStr " web 01  "]> plain_vm).

(** Legacy guest OS and a snapshot count that is not a number. *)
Definition legacy_malformed_vm : dict :=
  vm_with [("guest_os", VStr "Windows Server 2008 R2");
           ("snapshot_count", VStr "many")].

(** Busy CPU and a memory usage that is not a number. *)
Definition busy_vm : dict :=
  vm_with [("avg_cpu_usage_pct", VInt 90);
           ("avg_mem_usage_pct", VStr "n/a")].

(** Windows guest with a CPU usage that is not a number. *)
Definition windows_vm : dict :=
  vm_with [("guest_os", VStr "Windows Server 2019");
           ("avg_cpu_usage_pct", VStr "n/a")].

(** Scenario 2: a legacy guest, up for more than a year. *)
Definition legacy_vm : dict :=
  vm_with [("guest_os", VStr "Windows Server 2008 R2");
           ("uptime_days", VInt 400)].

(** The plain VM powered off for 120 days, with a large disk. *)
Definition powered_off_vm : dict :=
  vm_with [("power_state", VStr "poweredOff"); ("disk_gb", VInt 500);
           ("tags", VList [VStr "powered_off_days=120"])].

(** Powered off, the tags given as one string. *)
Definition string_tags_vm : dict :=
  vm_with [("power_state", VStr "poweredOff");
           ("tags", VStr "powered_off_days=120")].

(** The condition [guest_os contains UBUNTU]. *)
Definition os_cond : dict :=
  list_to_map [("field", VStr "guest_os"); ("op", VStr "contains");
               ("value", VStr "UBUNTU")].


(** A catalog whose only rule, named r1 and of confidence high, has its
    category left empty, which both parsers read as null. *)
Definition null_category_rules : list value :=
  [VDict [("name", VStr "r1"); ("category", VNone);
          ("confidence", VStr "high")]].

(** The sample interpreter with that catalog in [rules.yaml]. *)
Definition null_category_interp : Interp := {|
  float_repr := float_repr (Interp := sample_interp);
  container_repr := container_repr (Interp := sample_interp);
  set_repr := set_repr (Interp := sample_interp);
  py_float := py_float (Interp := sample_interp);
  py_eq := py_eq (Interp := sample_interp);
  py_in := py_in (Interp := sample_interp);
  read_text := read_text (Interp := sample_interp);
  _HAS_YAML := true;
  yaml_safe_load := fun text =>
    if String.eqb text "rules" then Ok (VList null_category_rules)
    else Raise YAMLError;
  json_loads := json_loads (Interp := sample_interp);
|}.

(** * Properties *)

Section Properties.
Context `{!Interp}.

(** Case analysis on the condition of an [if] of the goal. *)
Ltac case_if :=
  match goal with
  | |- context [if ?b then _ else _] => destruct b
  end.

(** ** Comparisons and strings *)

Lemma py_gt_number v c : is_number v = true -> exists b, py_gt v c = Ok b.
Proof. destruct v; simpl; intros Hn; try discriminate; eauto. Qed.

Lemma py_le_number v c : is_number v = true -> exists b, py_le v c = Ok b.
Proof. destruct v; simpl; intros Hn; try discriminate; eauto. Qed.

Lemma get_or_number vm k z :
  number_or_absent vm k = true -> is_number (get_or vm k (VInt z)) = true.
Proof.
  unfold number_or_absent, get_or. destruct (vm !! k); simpl; auto.
Qed.

Lemma conforms_number vm k :
  conforms vm = true -> In k numeric_fields -> number_or_absent vm k = true.
Proof.
  unfold conforms. intros Hc Hk.
  apply andb_prop in Hc as [Hc _]. apply andb_prop in Hc as [Hc _].
  rewrite forallb_forall in Hc. auto.
Qed.

Lemma conforms_gt vm k z c :
  conforms vm = true -> In k numeric_fields ->
  exists b, py_gt (get_or vm k (VInt z)) c = Ok b.
Proof.
  intros Hc Hk. apply py_gt_number, get_or_number, conforms_number; auto.
Qed.

Lemma conforms_le vm k z c :
  conforms vm = true -> In k numeric_fields ->
  exists b, py_le (get_or vm k (VInt z)) c = Ok b.
Proof.
  intros Hc Hk. apply py_le_number, get_or_number, conforms_number; auto.
Qed.

Lemma conforms_guest_os vm :
  conforms vm = true -> exists g, guest_os_lower vm = Ok g.
Proof.
  unfold conforms, str_or_absent, guest_os_lower, get, py_or.
  intros Hc. apply andb_prop in Hc as [Hc _]. apply andb_prop in Hc as [_ Hc].
  destruct (vm !! "guest_os") as [v|]; simpl.
  - destruct v; try discriminate. simpl.
    destruct (String.eqb s ""); simpl; eauto.
  - eauto.
Qed.

Lemma prefix_split p u :
  String.prefix p u = true <-> exists s, u = p +:+ s.
Proof.
  revert u. induction p as [|a p IH]; intros u.
  - destruct u; (split; [intros _; eexists |]; reflexivity).
  - destruct u as [|b u]; simpl.
    + split; [discriminate | intros [s Hs]; discriminate].
    + destruct (Ascii.ascii_dec a b) as [->|Hne].
      * rewrite IH. split; intros [s Hs]; exists s.
        -- now rewrite Hs.
        -- now injection Hs.
      * split; [discriminate | intros [s Hs]].
        injection Hs as Hab _. congruence.
Qed.

Lemma extract_days_tag s rest :
  extract_loop (VStr ("powered_off_days=" +:+ s) :: rest) = Ok (days_of s).
Proof.
  simpl. change ("" +:+ s) with s.
  replace (String.prefix "" s) with true by (destruct s; reflexivity).
  unfold days_of, py_int. destruct (parse_int s); reflexivity.
Qed.

Lemma extract_other_tag t rest :
  other_tag t -> extract_loop (t :: rest) = extract_loop rest.
Proof. intros (u & -> & Hu). simpl. now rewrite Hu. Qed.

Lemma extract_first_tag ts s :
  first_days_tag ts s -> extract_loop ts = Ok (days_of s).
Proof.
  intros (pre & post & -> & Hpre).
  induction Hpre as [|t pre Ht _ IH]; simpl app.
  - apply extract_days_tag.
  - now rewrite extract_other_tag.
Qed.

Lemma extract_nonzero ts n :
  extract_loop ts = Ok n -> n <> 0 ->
  exists s, first_days_tag ts s /\ parse_int s = Some n.
Proof.
  induction ts as [|t ts IH]; intros Hn Hz.
  - simpl in Hn. congruence.
  - destruct t as [| | | |u| |]; try discriminate Hn.
    destruct (String.prefix "powered_off_days=" u) eqn:Hu.
    + apply prefix_split in Hu as [s ->].
      rewrite extract_days_tag in Hn. injection Hn as <-.
      exists s. split.
      * exists [], ts. split; [reflexivity | constructor].
      * unfold days_of in Hz |- *. destruct (parse_int s); congruence.
    + rewrite extract_other_tag in Hn by (exists u; auto).
      destruct (IH Hn Hz) as (s & (pre & post & -> & Hpre) & Hs).
      exists s. split; [|exact Hs].
      exists (VStr u :: pre), post. split; [reflexivity|].
      constructor; [exists u; auto | exact Hpre].
Qed.

Lemma extract_str_list l :
  forallb is_str l = true -> exists n, extract_loop l = Ok n.
Proof.
  induction l as [|t l IH]; simpl; [eauto|].
  intros Hl. apply andb_prop in Hl as [Ht Hl].
  destruct t; try discriminate Ht. simpl.
  destruct (String.prefix "powered_off_days=" s); eauto.
Qed.

(** ** The tiers, one by one *)

Lemma zombie_tier_Some self vm d :
  zombie_tier self vm = Ok (Some d) <->
  eq_str (get vm "power_state") "poweredOff" = true
  /\ exists n,
       _extract_powered_off_days self (get_or vm "tags" (VList [])) = Ok n
       /\ 60 < n
       /\ d = ("retire", "high", "zombie-detection", zombie_reason n).
Proof.
  unfold zombie_tier.
  destruct (eq_str (get vm "power_state") "poweredOff").
  - destruct (_extract_powered_off_days self _) as [n|e]; simpl.
    + destruct (Z.eqb_spec n 0) as [->|Hn]; simpl.
      * split; [discriminate | intros [_ (m & Hm & Hlt & _)]].
        injection Hm as <-. lia.
      * destruct (Z.ltb_spec 60 n).
        -- split.
           ++ intros Hd. injection Hd as <-. eauto 6.
           ++ intros [_ (m & Hm & _ & ->)]. now injection Hm as <-.
        -- split; [discriminate | intros [_ (m & Hm & Hlt & _)]].
           injection Hm as <-. lia.
    + split; [discriminate | intros [_ (m & Hm & _)]; discriminate].
  - split; [discriminate | intros [Hp _]; discriminate].
Qed.

Lemma legacy_tier_shape g d :
  legacy_tier g = Some d ->
  (category d, confidence d, rule_name d)
  = ("keep", "high", "legacy-os-detection").
Proof.
  unfold legacy_tier, legacy_patterns. simpl.
  repeat (destruct (contains g _);
          [intros Hd; injection Hd as <-; reflexivity|]).
  discriminate.
Qed.

Lemma rehost_tier_shape vm d :
  rehost_tier vm = Ok (Some d) ->
  category d = "rehost" /\ rule_name d = "workload-complexity"
  /\ (confidence d = "medium" \/ confidence d = "high").
Proof.
  unfold rehost_tier. destruct (rehost_reasons vm) as [l|e]; simpl;
    [|discriminate].
  destruct l as [|x l]; [discriminate|].
  intros Hd. injection Hd as <-. unfold category, confidence, rule_name.
  simpl fst; simpl snd.
  repeat split; case_if; auto.
Qed.

Lemma refactor_tier_shape vm g d :
  refactor_tier vm g = Ok (Some d) ->
  (category d, confidence d, rule_name d)
  = ("refactor_candidate", "medium", "conservative-refactor").
Proof.
  unfold refactor_tier.
  destruct (and_then _ _) as [[|]|e]; simpl; try discriminate.
  destruct (risk_signals vm) as [n|e]; simpl; [|discriminate].
  destruct (n =? 0); [|discriminate].
  intros Hd. now injection Hd as <-.
Qed.

Lemma classify_decided_by self vm d :
  classify self vm = Ok d <-> decided_by self vm d.
Proof.
  unfold classify. split.
  - destruct (zombie_tier self vm) as [[z|]|e] eqn:Hz; simpl;
      [intros [= <-]; now apply by_zombie | | discriminate].
    destruct (guest_os_lower vm) as [g|e] eqn:Hg; simpl; [|discriminate].
    destruct (legacy_tier g) as [l|] eqn:Hl;
      [intros [= <-]; now apply by_legacy with g |].
    destruct (rehost_tier vm) as [[r|]|e] eqn:Hr; simpl;
      [intros [= <-]; now apply by_rehost with g | | discriminate].
    destruct (refactor_tier vm g) as [[f|]|e] eqn:Hf; simpl;
      [intros [= <-]; now apply by_refactor with g | | discriminate].
    intros [= <-]. now apply by_default with g.
  - intros [Hz | g Hz Hg Hl | g Hz Hg Hl Hr | g Hz Hg Hl Hr Hf
           | g Hz Hg Hl Hr Hf ->]; rewrite Hz; simpl; try reflexivity;
      rewrite Hg; simpl; rewrite Hl; try reflexivity;
      rewrite Hr; simpl; try reflexivity; rewrite Hf; reflexivity.
Qed.

Lemma classify_five_shapes self vm d :
  classify self vm = Ok d -> five_shapes d.
Proof.
  intros Hd. apply classify_decided_by in Hd. unfold five_shapes.
  destruct Hd as [Hz | g _ _ Hl | g _ _ _ Hr | g _ _ _ _ Hf
                 | g _ _ _ _ _ ->].
  - apply zombie_tier_Some in Hz as [_ (n & _ & _ & ->)]. auto.
  - apply legacy_tier_shape in Hl. auto.
  - apply rehost_tier_shape in Hr as (Hc & Hn & [Hm | Hh]).
    + right; right; left. now rewrite Hc, Hn, Hm.
    + right; right; right; left. now rewrite Hc, Hn, Hh.
  - apply refactor_tier_shape in Hf. auto 6.
  - auto 7.
Qed.

(** ** Classification returns on every conforming record *)

Lemma conforms_zombie_tier self vm :
  conforms vm = true -> exists z, zombie_tier self vm = Ok z.
Proof.
  intros Hc. unfold zombie_tier.
  destruct (eq_str (get vm "power_state") "poweredOff"); [|eauto].
  assert (exists n,
    _extract_powered_off_days self (get_or vm "tags" (VList [])) = Ok n)
    as [n ->].
  { unfold conforms, str_list_or_absent in Hc.
    apply andb_prop in Hc as [_ Hc].
    unfold _extract_powered_off_days, get_or.
    destruct (vm !! "tags") as [t|]; simpl; [|eauto].
    destruct t; try discriminate Hc. simpl.
    now apply extract_str_list. }
  simpl. destruct (negb (n =? 0) && (60 <? n)); eauto.
Qed.

Lemma conforms_rehost_tier vm :
  conforms vm = true -> exists r, rehost_tier vm = Ok r.
Proof.
  intros Hc. unfold rehost_tier, rehost_reasons.
  destruct (conforms_gt vm "snapshot_count" 0 5 Hc) as [b1 ->];
    [simpl; tauto|].
  destruct (conforms_gt vm "nics" 0 3 Hc) as [b2 ->]; [simpl; tauto|].
  destruct (conforms_gt vm "disk_gb" 0 300 Hc) as [b4 ->]; [simpl; tauto|].
  simpl. destruct (append_if b4 _ _); eauto.
Qed.

Lemma conforms_refactor_tier vm g :
  conforms vm = true -> exists f, refactor_tier vm g = Ok f.
Proof.
  intros Hc. unfold refactor_tier, risk_signals, and_then.
  destruct (conforms_le vm "nics" 1 1 Hc) as [c1 ->]; [simpl; tauto|].
  destruct (conforms_le vm "disk_gb" 0 100 Hc) as [c2 ->]; [simpl; tauto|].
  destruct (conforms_gt vm "snapshot_count" 0 0 Hc) as [s1 ->];
    [simpl; tauto|].
  destruct (conforms_gt vm "avg_cpu_usage_pct" 0 70 Hc) as [s2 ->];
    [simpl; tauto|].
  destruct (conforms_gt vm "avg_mem_usage_pct" 0 70 Hc) as [s3 ->];
    [simpl; tauto|].
  destruct (conforms_gt vm "uptime_days" 0 365 Hc) as [s4 ->];
    [simpl; tauto|].
  destruct (is_linux g), c1, c2; simpl; eauto; case_if; eauto.
Qed.

Lemma conforms_classify self vm :
  conforms vm = true -> exists d, classify self vm = Ok d.
Proof.
  intros Hc. unfold classify.
  destruct (conforms_zombie_tier self vm Hc) as [[z|] ->]; simpl; [eauto|].
  destruct (conforms_guest_os vm Hc) as [g ->]; simpl.
  destruct (legacy_tier g); [eauto|].
  destruct (conforms_rehost_tier vm Hc) as [[r|] ->]; simpl; [eauto|].
  destruct (conforms_refactor_tier vm g Hc) as [[f|] ->]; simpl; eauto.
Qed.

Lemma extract_iter self tags n :
  _extract_powered_off_days self tags = Ok n <->
  exists ts, py_iter tags = Ok ts /\ extract_loop ts = Ok n.
Proof.
  unfold _extract_powered_off_days.
  destruct (py_iter tags) as [ts|e]; simpl.
  - split; [eauto | intros (ts' & [= <-] & Hn); exact Hn].
  - split; [discriminate | intros (ts' & Hts & _); discriminate].
Qed.

Lemma retire_by_zombie self vm d :
  classify self vm = Ok d -> category d = "retire" ->
  zombie_tier self vm = Ok (Some d).
Proof.
  intros Hd Hc. apply classify_decided_by in Hd.
  destruct Hd as [Hz | g _ _ Hl | g _ _ _ Hr | g _ _ _ _ Hf
                 | g _ _ _ _ _ ->]; [exact Hz | exfalso ..].
  - apply legacy_tier_shape in Hl. congruence.
  - apply rehost_tier_shape in Hr as (Hr & _). congruence.
  - apply refactor_tier_shape in Hf. congruence.
  - discriminate Hc.
Qed.

(** ** The zombie tier *)

(** C1, as amended: classification returns (retire, high,
    zombie-detection) with a reason that prints the day count exactly when
    the power state is poweredOff and the first tag, in list order, that
    starts with [powered_off_days=] (the tags before it being strings) has
    a value part that [int] accepts and that is above 60; no other field
    of the record is consulted.  In particular a record classified retire
    is poweredOff. *)
Theorem zombie_tier_first_tag self vm :
  (forall rsn,
     classify self vm = Ok ("retire", "high", "zombie-detection", rsn) <->
     eq_str (get vm "power_state") "poweredOff" = true
     /\ exists ts s n,
          py_iter (get_or vm "tags" (VList [])) = Ok ts
          /\ first_days_tag ts s
          /\ parse_int s = Some n
          /\ 60 < n
          /\ rsn = "Powered off for " +:+ pretty n +:+
                   " days; requires decommission")
  /\ (forall d,
        classify self vm = Ok d -> category d = "retire" ->
        eq_str (get vm "power_state") "poweredOff" = true).
Proof.
  split.
  - intros rsn. split.
    + intros Hd. apply retire_by_zombie in Hd; [|reflexivity].
      apply zombie_tier_Some in Hd as [Hp (n & Hn & Hlt & Hd)].
      split; [exact Hp|].
      apply extract_iter in Hn as (ts & Hts & Hn).
      apply extract_nonzero in Hn as (s & Hs & Hparse); [|lia].
      exists ts, s, n. injection Hd as ->. auto.
    + intros [Hp (ts & s & n & Hts & Hs & Hparse & Hlt & ->)].
      apply classify_decided_by, by_zombie, zombie_tier_Some.
      split; [exact Hp|]. exists n. repeat split; [|exact Hlt].
      apply extract_iter. exists ts. split; [exact Hts|].
      rewrite (extract_first_tag _ _ Hs). unfold days_of.
      now rewrite Hparse.
  - intros d Hd Hc. apply retire_by_zombie in Hd; [|exact Hc].
    now apply zombie_tier_Some in Hd as [Hp _].
Qed.

(** C10: the extraction returns what the first tag that starts with
    [powered_off_days=] gives, its integer or 0 when [int] rejects its value
    part, whatever the tags after it are; so with the tags
    [powered_off_days=bad], [powered_off_days=120] a poweredOff record is
    not matched by the zombie tier and is not classified retire. *)
Theorem extraction_commits_to_first_tag self pre s post :
  Forall other_tag pre ->
  _extract_powered_off_days self
    (VList (pre ++ VStr ("powered_off_days=" +:+ s) :: post))
  = Ok (match parse_int s with Some n => n | None => 0 end)
  /\ (forall vm,
        eq_str (get vm "power_state") "poweredOff" = true ->
        get_or vm "tags" (VList [])
        = VList [VStr "powered_off_days=bad"; VStr "powered_off_days=120"] ->
        zombie_tier self vm = Ok None
        /\ forall d, classify self vm = Ok d -> category d <> "retire").
Proof.
  intros Hpre. split.
  - apply extract_iter. eexists. split; [reflexivity|].
    apply extract_first_tag. now exists pre, post.
  - intros vm Hp Ht.
    assert (zombie_tier self vm = Ok None) as Hz.
    { unfold zombie_tier. rewrite Hp, Ht. reflexivity. }
    split; [exact Hz|]. intros d Hd Hc.
    apply retire_by_zombie in Hd; [congruence | exact Hc].
Qed.

(** ** The closed vocabularies and the five shapes *)

(** C8: the category that classification returns is one of rehost,
    refactor_candidate, retire and keep, and the confidence one of high,
    medium and low; and on every conforming record classification
    returns. *)
Theorem classify_closed_vocabulary :
  (forall self vm d, classify self vm = Ok d -> closed_vocabulary d)
  /\ (forall self vm,
        conforms vm = true ->
        exists d, classify self vm = Ok d /\ closed_vocabulary d).
Proof.
  assert (forall self vm d, classify self vm = Ok d -> closed_vocabulary d)
    as Hclosed.
  { intros self vm d Hd. apply classify_five_shapes in Hd.
    unfold five_shapes, closed_vocabulary in *.
    destruct Hd as [Hs | [Hs | [Hs | [Hs | [Hs | Hs]]]]];
      injection Hs as -> -> _; simpl; tauto. }
  split; [exact Hclosed|].
  intros self vm Hc. destruct (conforms_classify self vm Hc) as [d Hd].
  exists d. split; [exact Hd | now apply Hclosed with self vm].
Qed.

(** C9: the triple of category, confidence and rule name that
    classification returns has one of five shapes, (retire, high,
    zombie-detection), (keep, high, legacy-os-detection), (rehost, medium
    or high, workload-complexity), (refactor_candidate, medium,
    conservative-refactor) and (keep, medium, default-conservative); the
    confidence is never low, retire comes from the zombie tier only, so on
    a poweredOff record, and rehost has confidence medium or high.  Each
    shape is returned for some record. *)
Theorem classify_five_shapes_only :
  (forall self vm d,
     classify self vm = Ok d ->
     five_shapes d
     /\ confidence d <> "low"
     /\ (category d = "retire" ->
         rule_name d = "zombie-detection"
         /\ eq_str (get vm "power_state") "poweredOff" = true)
     /\ (category d = "rehost" ->
         confidence d = "medium" \/ confidence d = "high"))
  /\ (forall self,
        (exists rsn, classify self zombie_vm
           = Ok ("retire", "high", "zombie-detection", rsn))
        /\ (exists rsn,
              classify self
                (vm_with [("guest_os", VStr "Windows Server 2008 R2")])
              = Ok ("keep", "high", "legacy-os-detection", rsn))
        /\ (exists rsn,
              classify self (vm_with [("snapshot_count", VInt 8)])
              = Ok ("rehost", "medium", "workload-complexity", rsn))
        /\ (exists rsn, classify self complex_vm
              = Ok ("rehost", "high", "workload-complexity", rsn))
        /\ (exists rsn, classify self plain_vm
              = Ok ("refactor_candidate", "medium", "conservative-refactor",
                    rsn))
        /\ (exists rsn, classify self fedora_vm
              = Ok ("keep", "medium", "default-conservative", rsn))).
Proof.
  split.
  - intros self vm d Hd.
    pose proof (classify_five_shapes _ _ _ Hd) as Hs.
    split; [exact Hs|]. split; [|split].
    + unfold five_shapes in Hs.
      destruct Hs as [Hs | [Hs | [Hs | [Hs | [Hs | Hs]]]]];
        injection Hs as _ -> _; discriminate.
    + intros Hc. pose proof (retire_by_zombie _ _ _ Hd Hc) as Hz.
      apply zombie_tier_Some in Hz as [Hp (n & _ & _ & ->)]. auto.
    + intros Hc. unfold five_shapes in Hs.
      destruct Hs as [Hs | [Hs | [Hs | [Hs | [Hs | Hs]]]]];
        injection Hs as Hcat -> _; auto; congruence.
  - intros self. repeat split; eexists; vm_compute; reflexivity.
Qed.

(** ** Risk scoring *)

Lemma clamp_min_max score : clamp score = Z.max 0 (Z.min 100 score).
Proof.
  unfold clamp.
  destruct (Z.ltb_spec 100 score); destruct (Z.ltb_spec score 0);
    destruct (Z.ltb_spec 100 0); lia.
Qed.

Lemma conforms_raw_score vm :
  conforms vm = true -> exists st, raw_score vm = Ok st.
Proof.
  intros Hc. unfold raw_score.
  destruct (conforms_gt vm "snapshot_count" 0 5 Hc) as [b1 ->];
    [simpl; tauto|].
  destruct (conforms_gt vm "max_snapshot_age_days" 0 30 Hc) as [b2 ->];
    [simpl; tauto|].
  destruct (conforms_guest_os vm Hc) as [g Hg].
  unfold guest_os_lower in Hg. rewrite Hg.
  destruct (conforms_gt vm "nics" 0 3 Hc) as [b5 ->]; [simpl; tauto|].
  destruct (conforms_gt vm "avg_cpu_usage_pct" 0 80 Hc) as [b6 ->];
    [simpl; tauto|].
  destruct (conforms_gt vm "avg_mem_usage_pct" 0 80 Hc) as [b6' ->];
    [simpl; tauto|].
  destruct (conforms_gt vm "uptime_days" 0 365 Hc) as [b7 ->];
    [simpl; tauto|].
  simpl. destruct b6; simpl; eauto.
Qed.

(** C4: the score is an integer between 0 and 100.  It is the sum of the
    weights 20, 15, 25, 10, 10, 15 and 10 of the signals that fired, at
    most 105, clamped above at 100 and below at 0; the record on which all
    seven fire has raw sum 105 and score 100; the raw sum is never
    negative, and the clamp at 0 is there all the same.  On every
    conforming record scoring returns. *)
Theorem score_between_0_and_100 :
  (forall vm score trace,
     score_vm vm = Ok (score, trace) ->
     0 <= score <= 100
     /\ exists b1 b2 b3 b4 b5 b6 b7 : bool,
          let raw := 20 * Z.b2z b1 + 15 * Z.b2z b2 + 25 * Z.b2z b3
                     + 10 * Z.b2z b4 + 10 * Z.b2z b5 + 15 * Z.b2z b6
                     + 10 * Z.b2z b7 in
          py_gt (get_or vm "snapshot_count" (VInt 0)) 5 = Ok b1
          /\ py_gt (get_or vm "max_snapshot_age_days" (VInt 0)) 30 = Ok b2
          /\ (g ← guest_os_lower vm;
              Ok (existsb (contains g) legacy_tokens)) = Ok b3
          /\ negb (eq_str (get vm "tools_status") "running") = b4
          /\ py_gt (get_or vm "nics" (VInt 0)) 3 = Ok b5
          /\ (a ← py_gt (get_or vm "avg_cpu_usage_pct" (VInt 0)) 80;
              or_else a (py_gt (get_or vm "avg_mem_usage_pct" (VInt 0)) 80))
             = Ok b6
          /\ py_gt (get_or vm "uptime_days" (VInt 0)) 365 = Ok b7
          /\ raw_score vm = Ok (raw, trace)
          /\ 0 <= raw <= 105
          /\ score = Z.min 100 raw)
  /\ (forall vm,
        conforms vm = true -> exists score trace,
          score_vm vm = Ok (score, trace) /\ 0 <= score <= 100)
  /\ (exists trace,
        raw_score all_signals_vm = Ok (105, trace)
        /\ score_vm all_signals_vm = Ok (100, trace))
  /\ (forall raw, clamp raw = Z.max 0 (Z.min 100 raw))
  /\ clamp (-1) = 0.
Proof.
  assert (forall vm score trace,
            score_vm vm = Ok (score, trace) -> 0 <= score <= 100) as Hb.
  { intros vm score trace. unfold score_vm.
    destruct (raw_score vm) as [[raw tr]|e]; simpl; [|discriminate].
    intros [= <- _]. rewrite clamp_min_max. lia. }
  split; [|split; [|split; [|split]]].
  - intros vm score trace Hs. split; [now apply Hb with vm trace|].
    revert Hs. unfold score_vm, raw_score, guest_os_lower.
    destruct (py_gt (get_or vm "snapshot_count" _) 5) as [b1|]; simpl;
      [|discriminate].
    destruct (py_gt (get_or vm "max_snapshot_age_days" _) 30) as [b2|];
      simpl; [|discriminate].
    destruct (method_lower _) as [g|]; simpl; [|discriminate].
    destruct (py_gt (get_or vm "nics" _) 3) as [b5|]; simpl; [|discriminate].
    destruct (py_gt (get_or vm "avg_cpu_usage_pct" _) 80
              ≫= (fun a => or_else a _)) as [b6|]; simpl; [|discriminate].
    destruct (py_gt (get_or vm "uptime_days" _) 365) as [b7|]; simpl;
      [|discriminate].
    remember (contains g "2008" || _) as b3 eqn:E3.
    remember (negb (eq_str _ _)) as b4 eqn:E4. clear E3 E4.
    intros Hs. exists b1, b2, b3, b4, b5, b6, b7.
    destruct b1, b2, b3, b4, b5, b6, b7; simpl in Hs |- *;
      injection Hs as <- <-; repeat split; lia.
  - intros vm Hc. destruct (conforms_raw_score vm Hc) as [[raw tr] Hr].
    exists (clamp raw), tr.
    assert (score_vm vm = Ok (clamp raw, tr)) as Hs.
    { unfold score_vm. now rewrite Hr. }
    split; [exact Hs | now apply Hb with vm tr].
  - eexists. split; vm_compute; reflexivity.
  - apply clamp_min_max.
  - reflexivity.
Qed.

(** C5: a score from 0 to 29 is Low, from 30 to 69 Medium and from 70 to
    100 High; 29 is Low, 69 is Medium and 70 is High. *)
Theorem risk_level_tiers score :
  0 <= score <= 100 ->
  (score <= 29 -> risk_level score = "Low")
  /\ (30 <= score <= 69 -> risk_level score = "Medium")
  /\ (70 <= score -> risk_level score = "High")
  /\ risk_level 29 = "Low"
  /\ risk_level 69 = "Medium"
  /\ risk_level 70 = "High".
Proof.
  intros Hs. unfold risk_level.
  repeat split; try reflexivity; intros Hr;
    destruct (Z.leb_spec score 29); destruct (Z.leb_spec score 69);
    try reflexivity; lia.
Qed.

(** ** The workload-complexity and the refactor tiers *)

(** C6: on a record that the zombie tier and the legacy-OS tier do not
    match, the checks snapshot count > 5, NIC count > 3, tooling status !=
    running and disk size > 300 contribute one fragment each, in this
    order.  When at least one fires, the decision is rehost, by rule
    workload-complexity, with confidence medium for one fragment and high
    for two or more, and the reason is the fragments joined with ["; "];
    when none fires the tier is passed and the decision is not rehost. *)
Theorem workload_complexity_tier self vm g b1 b2 b4 :
  zombie_tier self vm = Ok None ->
  guest_os_lower vm = Ok g ->
  legacy_tier g = None ->
  py_gt (get_or vm "snapshot_count" (VInt 0)) 5 = Ok b1 ->
  py_gt (get_or vm "nics" (VInt 0)) 3 = Ok b2 ->
  py_gt (get_or vm "disk_gb" (VInt 0)) 300 = Ok b4 ->
  let b3 := negb (eq_str (get vm "tools_status") "running") in
  let fired := ((if b1 then [snapshot_fragment vm] else [])
                ++ (if b2 then [nics_fragment vm] else [])
                ++ (if b3 then [tools_fragment vm] else [])
                ++ (if b4 then [disk_fragment vm] else []))%list in
  let count := Z.b2z b1 + Z.b2z b2 + Z.b2z b3 + Z.b2z b4 in
  Z.of_nat (length fired) = count
  /\ (1 <= count ->
      classify self vm
      = Ok ("rehost", if 2 <=? count then "high" else "medium",
            "workload-complexity", join "; " fired))
  /\ (count = 0 ->
      rehost_tier vm = Ok None
      /\ forall d, classify self vm = Ok d ->
                   category d <> "rehost"
                   /\ rule_name d <> "workload-complexity").
Proof.
  intros Hz Hg Hl H1 H2 H4 b3 fired count.
  assert (rehost_reasons vm = Ok fired) as Hfired.
  { unfold rehost_reasons. rewrite H1, H2, H4. simpl. fold b3.
    subst fired. destruct b1, b2, b3, b4; reflexivity. }
  split; [|split].
  - subst fired count. destruct b1, b2, b3, b4; reflexivity.
  - intros Hcount. unfold classify. rewrite Hz. simpl. rewrite Hg. simpl.
    rewrite Hl. unfold rehost_tier. rewrite Hfired. simpl.
    subst fired count. destruct b1, b2, b3, b4; simpl in Hcount |- *;
      try reflexivity; lia.
  - intros Hcount.
    assert (rehost_tier vm = Ok None) as Hr.
    { unfold rehost_tier. rewrite Hfired. simpl. subst fired count.
      destruct b1, b2, b3, b4; simpl in Hcount |- *; try reflexivity; lia. }
    split; [exact Hr|]. intros d Hd. apply classify_decided_by in Hd.
    destruct Hd as [Hz' | g' _ Hg' Hl' | g' _ _ _ Hr' | g' _ _ _ _ Hf
                   | g' _ _ _ _ _ ->].
    + congruence.
    + rewrite Hg in Hg'. injection Hg' as <-. congruence.
    + congruence.
    + apply refactor_tier_shape in Hf. injection Hf as -> _ ->.
      split; discriminate.
    + split; discriminate.
Qed.

(** C7: on a record that reaches the fourth tier, the decision is
    (refactor_candidate, medium, conservative-refactor) exactly when the
    lower-cased guest OS contains linux, rhel, centos, ubuntu or debian,
    NIC count <= 1, disk size <= 100, and none of snapshot count > 0,
    average CPU usage > 70, average memory usage > 70 and uptime > 365
    holds; otherwise it is (keep, medium, default-conservative). *)
Theorem conservative_refactor_tier self vm g c1 c2 s1 s2 s3 s4 :
  zombie_tier self vm = Ok None ->
  guest_os_lower vm = Ok g ->
  legacy_tier g = None ->
  rehost_tier vm = Ok None ->
  py_le (get_or vm "nics" (VInt 1)) 1 = Ok c1 ->
  py_le (get_or vm "disk_gb" (VInt 0)) 100 = Ok c2 ->
  py_gt (get_or vm "snapshot_count" (VInt 0)) 0 = Ok s1 ->
  py_gt (get_or vm "avg_cpu_usage_pct" (VInt 0)) 70 = Ok s2 ->
  py_gt (get_or vm "avg_mem_usage_pct" (VInt 0)) 70 = Ok s3 ->
  py_gt (get_or vm "uptime_days" (VInt 0)) 365 = Ok s4 ->
  let linux := contains g "linux" || contains g "rhel" || contains g "centos"
               || contains g "ubuntu" || contains g "debian" in
  let tally := Z.b2z s1 + Z.b2z s2 + Z.b2z s3 + Z.b2z s4 in
  classify self vm
  = Ok (if linux && c1 && c2 && (tally =? 0)
        then ("refactor_candidate", "medium", "conservative-refactor",
              "Linux; low risk profile; single NIC; small disk; eligible for containerization")
        else ("keep", "medium", "default-conservative",
              "Conservative default: keep on-premises")).
Proof.
  intros Hz Hg Hl Hr Hc1 Hc2 Hs1 Hs2 Hs3 Hs4 linux tally.
  unfold classify. rewrite Hz. simpl. rewrite Hg. simpl. rewrite Hl, Hr. simpl.
  unfold refactor_tier, risk_signals, is_linux. simpl existsb.
  rewrite Hc1, Hc2, Hs1, Hs2, Hs3, Hs4. subst linux tally.
  destruct (contains g "linux"), (contains g "rhel"), (contains g "centos"),
    (contains g "ubuntu"), (contains g "debian"), c1, c2, s1, s2, s3, s4;
    reflexivity.
Qed.

(** ** Malformed numeric fields *)

(** The generic evaluator guards its four numeric operators: whatever the
    field and the value hold, the comparison returns, and it is false when
    one side does not convert to a float. *)
Lemma eval_condition_numeric vm cond k op :
  get cond "field" = VStr k ->
  get cond "op" = VStr op ->
  In op ["gt"; "gte"; "lt"; "lte"] ->
  exists b,
    _eval_condition vm cond = Ok b
    /\ (forall e, py_float (get vm k) = Raise e -> b = false)
    /\ (forall e, py_float (get cond "value") = Raise e -> b = false).
Proof.
  intros Hk Hop Hin. unfold _eval_condition. rewrite Hk, Hop. simpl.
  assert (forall test,
            (forall e, py_float (get vm k) = Raise e ->
                       float_test test (get vm k) (get cond "value") = false)
            /\ (forall e, py_float (get cond "value") = Raise e ->
                          float_test test (get vm k) (get cond "value")
                          = false)) as Hguard.
  { intros test. unfold float_test. split; intros e He.
    - now rewrite He.
    - destruct (py_float (get vm k)); simpl; [now rewrite He | reflexivity]. }
  destruct Hin as [<- | [<- | [<- | [<- | []]]]]; simpl;
    eexists; (split; [reflexivity | apply Hguard]).
Qed.

(** C2, at the record whose snapshot count is the string [many]: the
    comparison [snapshot_count > 5] of the cascade raises TypeError, so
    classification does not return, and neither does scoring, on any
    engine. *)
Theorem classify_raises_on_malformed_count self :
  classify self malformed_vm = Raise TypeError
  /\ score_vm malformed_vm = Raise TypeError.
Proof. split; reflexivity. Qed.

(** ** Construction of the engine *)






Lemma init_after_load path rs :
  load_rules path = Ok rs ->
  RuleEngine_init path
  = match validate_loop rs with
    | Ok _ => Ok {| rules := rs |}
    | Raise e => Raise e
    end.
Proof.
  intros Hl. unfold RuleEngine_init, _validate_rules. rewrite Hl. simpl.
  destruct (validate_loop rs); reflexivity.
Qed.

(** C3, at a rule whose category is null: the category is lowered as it
    is, so construction fails with an AttributeError, which names neither
    the rule nor the allowed set, whatever the name and the confidence of
    the rule and whatever follows it.  The confidence is turned into a
    string first: the same rule with the null in its confidence and a
    category of the vocabulary is refused with the ValueError that names
    the rule, the confidence [none] and the allowed set. *)
Theorem construction_raises_on_null_category path name rest :
  (forall conf,
     load_rules path
     = Ok (VDict [("name", name); ("category", VNone); ("confidence", conf)]
           :: rest) ->
     RuleEngine_init path = Raise AttributeError)
  /\ (load_rules path
      = Ok (VDict [("name", name); ("category", VStr "keep");
                   ("confidence", VNone)] :: rest) ->
      RuleEngine_init path
      = Raise (ValueError (invalid_confidence_msg name "none"))).
Proof.
  split.
  - intros conf Hl. rewrite (init_after_load path _ Hl). reflexivity.
  - intros Hl. rewrite (init_after_load path _ Hl). reflexivity.
Qed.


End Properties.

(** * The statements at the sample data *)

(** C1 as the specification words it fails on the record with the two
    tags: a well-formed tag above 60 is present, the record is poweredOff,
    and the decision is not retire. *)
Lemma zombie_iff_some_tag_fails :
  ~ zombie_iff_some_tag (H := sample_interp) sample_engine two_tags_vm.
Proof.
  intros [_ Hif].
  destruct Hif as [rsn Hr].
  - split; [reflexivity|].
    exists [VStr "powered_off_days=bad"; VStr "powered_off_days=120"],
      "120", 120.
    split; [reflexivity|]. split; [right; left; reflexivity|].
    split; [reflexivity | lia].
  - vm_compute in Hr. discriminate Hr.
Qed.

(** The guarded comparison of the generic evaluator on the record that
    makes the cascade raise. *)
Example eval_condition_on_malformed_count :
  _eval_condition (H := sample_interp) malformed_vm snapshot_cond = Ok false.
Proof. reflexivity. Qed.

(** A catalog that is a mapping is refused when it is loaded. *)
Example init_on_mapping :
  RuleEngine_init (H := sample_interp) "broken.yaml"
  = Raise (ValueError "Rules file must be a YAML/JSON list of rules").
Proof. reflexivity. Qed.

(** A category that is not a string is refused, by [lower]. *)
Example validate_non_string_category :
  _validate_rules (H := sample_interp)
    {| rules := [VDict [("name", VStr "r1"); ("category", VInt 5);
                        ("confidence", VStr "high")]] |}
  = Raise AttributeError.
Proof. reflexivity. Qed.

Lemma zombie_tier_first_tag_witness :
  classify (H := sample_interp) sample_engine zombie_vm
  = Ok ("retire", "high", "zombie-detection",
        "Powered off for 120 days; requires decommission").
Proof.
  apply (proj1 (zombie_tier_first_tag (H := sample_interp)
                  sample_engine zombie_vm)).
  split; [reflexivity|].
  exists [VStr "powered_off_days=120"], "120", 120.
  split; [reflexivity|]. split.
  - exists [], []. split; [reflexivity | constructor].
  - split; [reflexivity|]. split; [lia | reflexivity].
Defined.

Lemma extraction_commits_to_first_tag_witness :
  Forall other_tag [VStr "env=prod"]
  /\ _extract_powered_off_days sample_engine
       (VList [VStr "env=prod"; VStr "powered_off_days=bad";
               VStr "powered_off_days=120"])
     = Ok 0.
Proof.
  assert (Forall other_tag [VStr "env=prod"]) as Hpre.
  { repeat constructor. exists "env=prod". split; reflexivity. }
  split; [exact Hpre|].
  apply (proj1 (extraction_commits_to_first_tag (H := sample_interp)
                  sample_engine [VStr "env=prod"] "bad" [VStr "powered_off_days=120"]
                  Hpre)).
Defined.

Lemma classify_closed_vocabulary_witness :
  conforms plain_vm = true
  /\ exists d,
       classify (H := sample_interp) sample_engine plain_vm = Ok d
       /\ closed_vocabulary d.
Proof.
  split; [reflexivity|].
  apply (proj2 (classify_closed_vocabulary (H := sample_interp))).
  reflexivity.
Defined.

Lemma classify_five_shapes_only_witness :
  classify (H := sample_interp) sample_engine fedora_vm
  = Ok default_decision
  /\ five_shapes default_decision.
Proof.
  split; [reflexivity|].
  apply (proj1 (classify_five_shapes_only (H := sample_interp))
           sample_engine fedora_vm default_decision).
  reflexivity.
Defined.

Lemma score_between_0_and_100_witness :
  score_vm all_signals_vm
  = Ok (100, ["snapshot_count>5:+20"; "max_snapshot_age_days>30:+15";
              "guest_os_legacy:+25"; "tools_status_not_running:+10";
              "nics>3:+10"; "high_avg_usage:+15"; "uptime_days>365:+10"])
  /\ 0 <= 100 <= 100.
Proof.
  split; [reflexivity|].
  eapply (proj1 score_between_0_and_100 all_signals_vm).
  reflexivity.
Defined.

Lemma risk_level_tiers_witness :
  0 <= 29 <= 100 /\ risk_level 29 = "Low".
Proof.
  split; [lia|].
  apply (proj1 (risk_level_tiers 29 ltac:(lia))). lia.
Defined.

Lemma workload_complexity_tier_witness :
  classify (H := sample_interp) sample_engine complex_vm
  = Ok ("rehost", "high", "workload-complexity",
        "Complex snapshot state (8 snapshots) requires stateful rehost; Multi-NIC configuration (4 NICs) requires careful networking planning").
Proof.
  apply (proj1 (proj2 (workload_complexity_tier (H := sample_interp)
                         sample_engine complex_vm "ubuntu 20.04"
                         true true false
                         eq_refl eq_refl eq_refl eq_refl eq_refl eq_refl))).
  vm_compute. discriminate.
Defined.

Lemma conservative_refactor_tier_witness :
  classify (H := sample_interp) sample_engine fedora_vm
  = Ok ("keep", "medium", "default-conservative",
        "Conservative default: keep on-premises").
Proof.
  apply (conservative_refactor_tier (H := sample_interp)
           sample_engine fedora_vm "fedora 34"
           true true true false false false
           eq_refl eq_refl eq_refl eq_refl eq_refl eq_refl eq_refl eq_refl
           eq_refl eq_refl).
Defined.


Lemma construction_raises_on_null_category_witness :
  load_rules (H := null_category_interp) "rules.yaml" = Ok null_category_rules
  /\ RuleEngine_init (H := null_category_interp) "rules.yaml"
     = Raise AttributeError.
Proof.
  split; [reflexivity|].
  apply (proj1 (construction_raises_on_null_category
                  (H := null_category_interp) "rules.yaml" (VStr "r1") [])
           (VStr "high")).
  reflexivity.
Defined.

(** * Further properties *)

Section Further.
Context `{!Interp}.

(** ** What raises, and with which error *)



Lemma py_gt_not_number v c :
  is_number v = false -> py_gt v c = Raise TypeError.
Proof. destruct v; simpl; congruence. Qed.

Lemma py_gt_Ok v c b : py_gt v c = Ok b -> is_number v = true.
Proof. destruct v; simpl; congruence. Qed.








(** The decimal print of a number below [10 ^ k] has at most [k] digits. *)
Lemma pretty_go_length (k : nat) :
  forall (x : N) s,
    (x < 10 ^ N.of_nat k)%N ->
    (String.length (pretty_N_go x s) <= k + String.length s)%nat.
Proof.
  induction k as [|k IH]; intros x s Hx.
  - assert (x = 0%N) as -> by (simpl in Hx; lia).
    rewrite pretty_N_go_0. lia.
  - destruct (N.eq_dec x 0%N) as [->|Hne].
    + rewrite pretty_N_go_0. lia.
    + rewrite pretty_N_go_step by lia.
      etrans; [apply IH|simpl; lia].
      rewrite Nat2N.inj_succ, N.pow_succ_r' in Hx.
      apply N.Div0.div_lt_upper_bound. lia.
Qed.

Lemma pretty_length (x : N) (k : nat) :
  (0 < k)%nat -> (x < 10 ^ N.of_nat k)%N ->
  (String.length (pretty x) <= k)%nat.
Proof.
  intros Hk Hx. unfold pretty, pretty_N.
  destruct (decide (x = 0%N)); [simpl; lia|].
  pose proof (pretty_go_length k x "" Hx) as Hl. simpl in Hl. lia.
Qed.

Lemma small_int_length z :
  small_int z = true -> (String.length (pretty (Z.abs z)) <= 640)%nat.
Proof.
  unfold small_int. intros Hz. apply Z.ltb_lt in Hz.
  assert (pretty (Z.abs z) = pretty (Z.to_N (Z.abs z))) as ->.
  { destruct z; reflexivity. }
  apply pretty_length; [lia|].
  change (10 ^ N.of_nat 640)%N with (Z.to_N (10 ^ 640)).
  lia.
Qed.

Lemma exceeds_limit_small limit digits :
  (digits <= 640)%nat -> exceeds_limit limit digits = false.
Proof.
  intros Hd. unfold exceeds_limit.
  replace (640 <? Z.of_nat digits) with false by (symmetry; apply Z.ltb_ge; lia).
  apply andb_false_r.
Qed.



(** ** The legacy-OS tier and the guest OS *)

Lemma legacy_tier_None g :
  legacy_tier g = None <-> existsb (contains g) legacy_tokens = false.
Proof.
  unfold legacy_tier, legacy_patterns, legacy_tokens. simpl.
  destruct (contains g "2008"), (contains g "2003"), (contains g "rhel 6"),
    (contains g "centos 6"); simpl; split; congruence.
Qed.

(** X2: a record that the zombie tier does not match and whose lower-cased
    guest OS contains 2008, 2003, rhel 6 or centos 6 is decided keep, high,
    by legacy-os-detection, with the reason of the first of these patterns
    it contains; no numeric field is read before, so this holds whatever
    the numeric fields hold. *)
Theorem legacy_os_decides_before_numbers self vm g :
  zombie_tier self vm = Ok None ->
  guest_os_lower vm = Ok g ->
  existsb (contains g) ["2008"; "2003"; "rhel 6"; "centos 6"] = true ->
  classify self vm
  = Ok ("keep", "high", "legacy-os-detection",
        if contains g "2008" then
          "Windows Server 2008 legacy OS requires on-premises infrastructure"
        else if contains g "2003" then
          "Windows Server 2003 legacy OS requires on-premises infrastructure"
        else if contains g "rhel 6" then
          "RHEL 6 legacy OS not supported in cloud targets"
        else "CentOS 6 legacy OS not supported in cloud targets").
Proof.
  intros Hz Hg Hl. unfold classify. rewrite Hz. simpl. rewrite Hg. simpl.
  unfold legacy_tier, legacy_patterns. simpl in Hl |- *.
  destruct (contains g "2008"), (contains g "2003"), (contains g "rhel 6"),
    (contains g "centos 6"); try reflexivity; discriminate.
Qed.

(** X3: a guest OS that is absent, None, empty or otherwise false counts
    as the empty string, so the record is never decided by the legacy-OS
    tier and is never a refactor candidate; a guest OS that is true and is
    not a string makes classification raise AttributeError, unless the
    zombie tier has decided before. *)
Theorem guest_os_absent_or_not_a_string self vm :
  (truthy (get vm "guest_os") = false ->
   guest_os_lower vm = Ok ""
   /\ forall d, classify self vm = Ok d ->
                rule_name d <> "legacy-os-detection"
                /\ category d <> "refactor_candidate")
  /\ (truthy (get vm "guest_os") = true ->
      is_str (get vm "guest_os") = false ->
      zombie_tier self vm = Ok None ->
      classify self vm = Raise AttributeError).
Proof.
  split.
  - intros Ht.
    assert (guest_os_lower vm = Ok "") as Hg.
    { unfold guest_os_lower, py_or. now rewrite Ht. }
    split; [exact Hg|]. intros d Hd. apply classify_decided_by in Hd.
    destruct Hd as [Hz | g _ Hg' Hl | g _ _ _ Hr | g _ Hg' _ _ Hf
                   | g _ _ _ _ _ ->].
    + apply zombie_tier_Some in Hz as [_ (n & _ & _ & ->)].
      split; discriminate.
    + rewrite Hg in Hg'. injection Hg' as <-. discriminate Hl.
    + apply rehost_tier_shape in Hr as (Hc & Hn & _).
      rewrite Hc, Hn. split; discriminate.
    + rewrite Hg in Hg'. injection Hg' as <-. discriminate Hf.
    + split; discriminate.
  - intros Ht Hs Hz. unfold classify. rewrite Hz. simpl.
    unfold guest_os_lower, py_or. rewrite Ht.
    destruct (get vm "guest_os"); try discriminate Hs; reflexivity.
Qed.

(** ** The refactor tier and fields that are not numbers *)

Lemma rehost_tier_None vm :
  rehost_tier vm = Ok None <->
  py_gt (get_or vm "snapshot_count" (VInt 0)) 5 = Ok false
  /\ py_gt (get_or vm "nics" (VInt 0)) 3 = Ok false
  /\ eq_str (get vm "tools_status") "running" = true
  /\ py_gt (get_or vm "disk_gb" (VInt 0)) 300 = Ok false.
Proof.
  unfold rehost_tier, rehost_reasons.
  destruct (py_gt (get_or vm "snapshot_count" _) 5) as [b1|]; simpl;
    [|split; [discriminate | intros [? _]; discriminate]].
  destruct (py_gt (get_or vm "nics" _) 3) as [b2|]; simpl;
    [|split; [discriminate | intros (_ & ? & _); discriminate]].
  destruct (py_gt (get_or vm "disk_gb" _) 300) as [b4|]; simpl;
    [|split; [discriminate | intros (_ & _ & _ & ?); discriminate]].
  destruct b1, b2, (eq_str (get vm "tools_status") "running"), b4; simpl;
    split; try discriminate; try tauto;
    intros (? & ? & ? & ?); discriminate.
Qed.

Lemma number_other_default vm k z z' :
  is_number (get_or vm k (VInt z)) = true ->
  is_number (get_or vm k (VInt z')) = true.
Proof. unfold get_or. destruct (vm !! k); simpl; auto. Qed.

(** X4: on a record that reaches the fourth tier, the average CPU usage,
    the average memory usage and the uptime are read only when the guest OS
    is Linux, NIC count <= 1 and disk size <= 100: otherwise the decision is
    the default whatever these three fields hold, and when all three
    conditions hold and one of these fields is not a number,
    classification raises TypeError. *)
Theorem refactor_tier_reads_usage_last self vm g :
  zombie_tier self vm = Ok None ->
  guest_os_lower vm = Ok g ->
  legacy_tier g = None ->
  rehost_tier vm = Ok None ->
  exists c1 c2,
    py_le (get_or vm "nics" (VInt 1)) 1 = Ok c1
    /\ py_le (get_or vm "disk_gb" (VInt 0)) 100 = Ok c2
    /\ (is_linux g && c1 && c2 = false ->
        classify self vm = Ok default_decision)
    /\ (is_linux g && c1 && c2 = true ->
        forallb (fun k => is_number (get_or vm k (VInt 0)))
          ["avg_cpu_usage_pct"; "avg_mem_usage_pct"; "uptime_days"] = false ->
        classify self vm = Raise TypeError).
Proof.
  intros Hz Hg Hl Hr.
  pose proof (proj1 (rehost_tier_None vm) Hr) as (H1 & H2 & _ & H4).
  destruct (py_le_number (get_or vm "nics" (VInt 1)) 1) as [c1 Hc1].
  { apply number_other_default with 0. eauto using py_gt_Ok. }
  destruct (py_le_number (get_or vm "disk_gb" (VInt 0)) 100) as [c2 Hc2].
  { eauto using py_gt_Ok. }
  destruct (py_gt_number (get_or vm "snapshot_count" (VInt 0)) 0) as [s1 Hs1].
  { eauto using py_gt_Ok. }
  exists c1, c2. split; [exact Hc1|]. split; [exact Hc2|].
  unfold classify. rewrite Hz. simpl. rewrite Hg. simpl. rewrite Hl, Hr.
  simpl. unfold refactor_tier, and_then. rewrite Hc1, Hc2.
  split.
  - intros Hsmall. destruct (is_linux g), c1, c2; try discriminate Hsmall;
      reflexivity.
  - intros Hsmall Hnum.
    destruct (is_linux g), c1, c2; try discriminate Hsmall. simpl.
    unfold risk_signals. rewrite Hs1. simpl in Hnum |- *.
    destruct (is_number (get_or vm "avg_cpu_usage_pct" (VInt 0))) eqn:Hcpu.
    + destruct (py_gt_number _ 70 Hcpu) as [s2 ->]. simpl.
      destruct (is_number (get_or vm "avg_mem_usage_pct" (VInt 0))) eqn:Hmem.
      * destruct (py_gt_number _ 70 Hmem) as [s3 ->]. simpl.
        destruct (is_number (get_or vm "uptime_days" (VInt 0))) eqn:Hup;
          [discriminate Hnum|].
        now rewrite (py_gt_not_number _ 365 Hup).
      * now rewrite (py_gt_not_number _ 70 Hmem).
    + now rewrite (py_gt_not_number _ 70 Hcpu).
Qed.

(** ** The score and its trace *)

(** What [raw_score] computed, for a scoring that returned. *)
Lemma raw_score_Ok vm raw trace :
  raw_score vm = Ok (raw, trace) ->
  exists b1 b2 g b5 b6 b7,
    py_gt (get_or vm "snapshot_count" (VInt 0)) 5 = Ok b1
    /\ py_gt (get_or vm "max_snapshot_age_days" (VInt 0)) 30 = Ok b2
    /\ guest_os_lower vm = Ok g
    /\ py_gt (get_or vm "nics" (VInt 0)) 3 = Ok b5
    /\ (a ← py_gt (get_or vm "avg_cpu_usage_pct" (VInt 0)) 80;
        or_else a (py_gt (get_or vm "avg_mem_usage_pct" (VInt 0)) 80))
       = Ok b6
    /\ py_gt (get_or vm "uptime_days" (VInt 0)) 365 = Ok b7
    /\ (raw, trace)
       = signal b7 10 "uptime_days>365:+10"
           (signal b6 15 "high_avg_usage:+15"
              (signal b5 10 "nics>3:+10"
                 (signal (negb (eq_str (get vm "tools_status") "running")) 10
                    "tools_status_not_running:+10"
                    (signal (existsb (contains g) legacy_tokens) 25
                       "guest_os_legacy:+25"
                       (signal b2 15 "max_snapshot_age_days>30:+15"
                          (signal b1 20 "snapshot_count>5:+20" (0, []))))))).
Proof.
  unfold raw_score, guest_os_lower.
  destruct (py_gt (get_or vm "snapshot_count" _) 5) as [b1|]; simpl;
    [|discriminate].
  destruct (py_gt (get_or vm "max_snapshot_age_days" _) 30) as [b2|];
    simpl; [|discriminate].
  destruct (method_lower _) as [g|]; simpl; [|discriminate].
  destruct (py_gt (get_or vm "nics" _) 3) as [b5|]; simpl; [|discriminate].
  destruct (py_gt (get_or vm "avg_cpu_usage_pct" _) 80
            ≫= (fun a => or_else a _)) as [b6|]; simpl; [|discriminate].
  destruct (py_gt (get_or vm "uptime_days" _) 365) as [b7|]; simpl;
    [|discriminate].
  intros [= Hst]. exists b1, b2, g, b5, b6, b7.
  repeat split; try reflexivity. now rewrite <- Hst.
Qed.

Lemma score_vm_Ok vm score trace :
  score_vm vm = Ok (score, trace) ->
  exists raw, raw_score vm = Ok (raw, trace) /\ score = clamp raw.
Proof.
  unfold score_vm. destruct (raw_score vm) as [[raw tr]|]; simpl;
    [|discriminate].
  intros [= <- <-]. eauto.
Qed.

Ltac sublist_of_table :=
  repeat first [apply sublist_skip | apply sublist_cons]; apply sublist_nil.

(** X5: the trace names the signals that fired, each once and in the order
    of the checks, and the score is the sum of the weights that the trace
    entries name, cut at 100; so the trace always accounts for the score. *)
Theorem trace_accounts_for_score vm score trace :
  score_vm vm = Ok (score, trace) ->
  sublist trace (fst <$> signal_table)
  /\ score = Z.min 100 (trace_weight trace).
Proof.
  intros Hs. apply score_vm_Ok in Hs as (raw & Hr & ->).
  apply raw_score_Ok in Hr as (b1 & b2 & g & b5 & b6 & b7 & _ & _ & _ & _
                               & _ & _ & Hst).
  rewrite clamp_min_max.
  destruct b1, b2, (existsb (contains g) legacy_tokens),
    (negb (eq_str (get vm "tools_status") "running")), b5, b6, b7;
    injection Hst as -> ->; (split; [sublist_of_table | reflexivity]).
Qed.

(** X6: a score is High only when at least four signals fired and is Low
    whenever at most one fired; the score is 100 exactly when all seven
    fired, so the cut at 100 never hides a signal of a lower score. *)
Theorem risk_level_by_number_of_signals vm score trace :
  score_vm vm = Ok (score, trace) ->
  (risk_level score = "High" -> (4 <= length trace)%nat)
  /\ ((length trace <= 1)%nat -> risk_level score = "Low")
  /\ (score = 100 <-> length trace = 7%nat)
  /\ (score < 100 -> score = trace_weight trace).
Proof.
  intros Hs. apply score_vm_Ok in Hs as (raw & Hr & ->).
  apply raw_score_Ok in Hr as (b1 & b2 & g & b5 & b6 & b7 & _ & _ & _ & _
                               & _ & _ & Hst).
  destruct b1, b2, (existsb (contains g) legacy_tokens),
    (negb (eq_str (get vm "tools_status") "running")), b5, b6, b7;
    injection Hst as -> ->; vm_compute;
    (split; [|split; [|split; [split|]]]); intros; try reflexivity;
    try discriminate; try lia.
Qed.

(** ** Classification and score of the same record *)

Lemma py_gt_false_above v c c' :
  py_gt v c = Ok false -> c <= c' -> py_gt v c' = Ok false.
Proof.
  destruct v as [|b|z|f| | |]; simpl; try discriminate; intros [= Hv] Hc;
    f_equal.
  - apply Z.ltb_ge. apply Z.ltb_ge in Hv. lia.
  - apply Z.ltb_ge. apply Z.ltb_ge in Hv. lia.
  - destruct f as [|[|]|m e]; simpl in *; try reflexivity; try discriminate.
    destruct (0 <=? e).
    + destruct (Z.compare_spec (m * 2 ^ e) c) as [He|He|He];
        try discriminate Hv;
        destruct (Z.compare_spec (m * 2 ^ e) c'); try reflexivity; lia.
    + assert (0 <= 2 ^ (- e)) by (apply Z.pow_nonneg; lia).
      destruct (Z.compare_spec m (c * 2 ^ (- e))) as [He|He|He];
        try discriminate Hv;
        destruct (Z.compare_spec m (c' * 2 ^ (- e))); try reflexivity; nia.
Qed.

Lemma risk_signals_zero vm :
  risk_signals vm = Ok 0 ->
  py_gt (get_or vm "snapshot_count" (VInt 0)) 0 = Ok false
  /\ py_gt (get_or vm "avg_cpu_usage_pct" (VInt 0)) 70 = Ok false
  /\ py_gt (get_or vm "avg_mem_usage_pct" (VInt 0)) 70 = Ok false
  /\ py_gt (get_or vm "uptime_days" (VInt 0)) 365 = Ok false.
Proof.
  unfold risk_signals.
  destruct (py_gt (get_or vm "snapshot_count" _) 0) as [s1|]; simpl;
    [|discriminate].
  destruct (py_gt (get_or vm "avg_cpu_usage_pct" _) 70) as [s2|]; simpl;
    [|discriminate].
  destruct (py_gt (get_or vm "avg_mem_usage_pct" _) 70) as [s3|]; simpl;
    [|discriminate].
  destruct (py_gt (get_or vm "uptime_days" _) 365) as [s4|]; simpl;
    [|discriminate].
  destruct s1, s2, s3, s4; simpl; intros Hn; try discriminate Hn;
    repeat split.
Qed.

Lemma refactor_tier_Some vm g d :
  refactor_tier vm g = Ok (Some d) ->
  is_linux g = true
  /\ py_le (get_or vm "nics" (VInt 1)) 1 = Ok true
  /\ py_le (get_or vm "disk_gb" (VInt 0)) 100 = Ok true
  /\ risk_signals vm = Ok 0.
Proof.
  unfold refactor_tier, and_then.
  destruct (is_linux g); simpl; [|discriminate].
  destruct (py_le (get_or vm "nics" _) 1) as [[|]|]; simpl; try discriminate.
  destruct (py_le (get_or vm "disk_gb" _) 100) as [[|]|]; simpl;
    try discriminate.
  destruct (risk_signals vm) as [n|]; simpl; [|discriminate].
  destruct (Z.eqb_spec n 0) as [->|]; [auto | discriminate].
Qed.

(** X7: a record that is classified refactor_candidate and is scored has a
    score of 0 or 15 and the risk level Low: the only scoring signal left
    to it is the age of its snapshots, which classification does not
    read. *)
Theorem refactor_candidate_scores_low self vm d score trace :
  classify self vm = Ok d ->
  category d = "refactor_candidate" ->
  score_vm vm = Ok (score, trace) ->
  risk_level score = "Low"
  /\ ((score = 0 /\ trace = [])
      \/ (score = 15 /\ trace = ["max_snapshot_age_days>30:+15"])).
Proof.
  intros Hd Hc Hs. apply classify_decided_by in Hd.
  destruct Hd as [Hz | g _ _ Hl | g _ _ _ Hr | g _ Hg Hl Hr Hf
                 | g _ _ _ _ _ ->].
  - apply zombie_tier_Some in Hz as [_ (n & _ & _ & ->)]. discriminate Hc.
  - apply legacy_tier_shape in Hl. congruence.
  - apply rehost_tier_shape in Hr as (Hr & _). congruence.
  - apply rehost_tier_None in Hr as (H1 & H5 & H4 & _).
    apply refactor_tier_Some in Hf as (_ & _ & _ & Hn).
    apply risk_signals_zero in Hn as (_ & Hcpu & Hmem & H7).
    apply legacy_tier_None in Hl.
    apply (py_gt_false_above _ 70 80) in Hcpu, Hmem; try lia.
    apply score_vm_Ok in Hs as (raw & Hraw & ->).
    apply raw_score_Ok in Hraw
      as (b1 & b2 & g' & b5 & b6 & b7 & E1 & _ & Eg & E5 & E6 & E7 & Hst).
    rewrite Hg in Eg. injection Eg as <-.
    rewrite H1 in E1. rewrite H5 in E5. rewrite H7 in E7.
    rewrite Hcpu in E6. simpl in E6. rewrite Hmem in E6.
    injection E1 as <-. injection E5 as <-. injection E6 as <-.
    injection E7 as <-. rewrite Hl, H4 in Hst.
    destruct b2; injection Hst as -> ->; vm_compute; auto.
  - discriminate Hc.
Qed.

(** X8: on a record that the zombie tier does not match and that is both
    classified and scored, the decision is by legacy-os-detection exactly
    when the trace holds the legacy signal, and the score is then at least
    25: the two engines look for the same four patterns. *)
Theorem legacy_decision_iff_legacy_signal self vm d score trace :
  zombie_tier self vm = Ok None ->
  classify self vm = Ok d ->
  score_vm vm = Ok (score, trace) ->
  (rule_name d = "legacy-os-detection" <-> In "guest_os_legacy:+25" trace)
  /\ (rule_name d = "legacy-os-detection" -> 25 <= score).
Proof.
  intros Hz Hd Hs.
  apply score_vm_Ok in Hs as (raw & Hraw & ->).
  apply raw_score_Ok in Hraw
    as (b1 & b2 & g & b5 & b6 & b7 & _ & _ & Hg & _ & _ & _ & Hst).
  assert (rule_name d = "legacy-os-detection"
          <-> existsb (contains g) legacy_tokens = true) as Hiff.
  { apply classify_decided_by in Hd.
    destruct Hd as [Hz' | g' _ Hg' Hl | g' _ Hg' Hl Hr | g' _ Hg' Hl _ Hf
                   | g' _ Hg' Hl _ _ ->]; [congruence | ..];
      rewrite Hg in Hg'; injection Hg' as <-.
    - split; [intros _ | intros _; now apply legacy_tier_shape in Hl as [=]].
      destruct (existsb (contains g) legacy_tokens) eqn:He; [reflexivity|].
      apply legacy_tier_None in He. congruence.
    - apply legacy_tier_None in Hl. rewrite Hl.
      apply rehost_tier_shape in Hr as (_ & -> & _).
      split; discriminate.
    - apply legacy_tier_None in Hl. rewrite Hl.
      apply refactor_tier_shape in Hf as [= _ _ ->]. split; discriminate.
    - apply legacy_tier_None in Hl. rewrite Hl. split; discriminate. }
  rewrite Hiff. rewrite clamp_min_max.
  destruct b1, b2, (existsb (contains g) legacy_tokens),
    (negb (eq_str (get vm "tools_status") "running")), b5, b6, b7;
    injection Hst as -> ->; simpl;
    (split; [split|]); intros; try reflexivity; try discriminate;
    try lia; try tauto;
    repeat match goal with
           | Hin : _ \/ _ |- _ => destruct Hin as [Hin | Hin]
           | Hin : _ = _ |- _ => discriminate Hin
           | Hin : False |- _ => destruct Hin
           end.
Qed.

(** ** What is read, and what is not *)

Lemma get_agree vm vm' k : vm !! k = vm' !! k -> get vm k = get vm' k.
Proof. unfold get. now intros ->. Qed.

Lemma get_or_agree vm vm' k v :
  vm !! k = vm' !! k -> get_or vm k v = get_or vm' k v.
Proof. unfold get_or. now intros ->. Qed.

(** X9: the score depends on eight fields only: two records that hold the
    same snapshot count, snapshot age, guest OS, tooling status, NIC count,
    CPU and memory usage and uptime have the same score and trace; power
    state, tags and disk size play no part. *)
Theorem score_reads_eight_fields vm vm' :
  agree_on score_fields vm vm' -> score_vm vm = score_vm vm'.
Proof.
  intros Ha. unfold score_vm, raw_score.
  rewrite (get_or_agree vm vm' "snapshot_count"),
    (get_or_agree vm vm' "max_snapshot_age_days"),
    (get_agree vm vm' "guest_os"), (get_agree vm vm' "tools_status"),
    (get_or_agree vm vm' "nics"), (get_or_agree vm vm' "avg_cpu_usage_pct"),
    (get_or_agree vm vm' "avg_mem_usage_pct"),
    (get_or_agree vm vm' "uptime_days");
    try reflexivity; apply Ha; simpl; tauto.
Qed.

(** X10: classification depends on nine fields and, for a poweredOff
    record only, on the tags: two records that hold the same under these
    keys get the same decision, or the same error. *)
Theorem classify_reads_nine_fields_and_tags self vm vm' :
  agree_on classify_fields vm vm' ->
  (eq_str (get vm "power_state") "poweredOff" = true ->
   vm !! "tags" = vm' !! "tags") ->
  classify self vm = classify self vm'.
Proof.
  intros Ha Ht.
  assert (zombie_tier self vm = zombie_tier self vm') as Hz.
  { unfold zombie_tier.
    rewrite <- (get_agree vm vm' "power_state") by (apply Ha; simpl; tauto).
    destruct (eq_str (get vm "power_state") "poweredOff"); [|reflexivity].
    now rewrite (get_or_agree vm vm' "tags") by auto. }
  unfold classify. rewrite Hz.
  unfold guest_os_lower, rehost_tier, rehost_reasons, refactor_tier,
    risk_signals, snapshot_fragment, nics_fragment, tools_fragment,
    disk_fragment.
  rewrite (get_agree vm vm' "guest_os"), (get_agree vm vm' "tools_status"),
    (get_agree vm vm' "snapshot_count"), (get_agree vm vm' "nics"),
    (get_agree vm vm' "disk_gb"),
    (get_or_agree vm vm' "snapshot_count"), !(get_or_agree vm vm' "nics"),
    (get_or_agree vm vm' "tools_status"), (get_or_agree vm vm' "disk_gb"),
    (get_or_agree vm vm' "avg_cpu_usage_pct"),
    (get_or_agree vm vm' "avg_mem_usage_pct"),
    (get_or_agree vm vm' "uptime_days");
    try reflexivity; apply Ha; simpl; tauto.
Qed.

(** X11: when the average CPU usage is above 80 the average memory usage
    is not read: the score and the trace are the same whatever that field
    holds, a value that is not a number included. *)
Theorem score_skips_memory_when_cpu_is_high vm v :
  py_gt (get_or vm "avg_cpu_usage_pct" (VInt 0)) 80 = Ok true ->
  score_vm (<["avg_mem_usage_pct" := v]> vm) = score_vm vm.
Proof.
  intros Hcpu. unfold score_vm, raw_score.
  rewrite (get_or_agree _ vm "snapshot_count"),
    (get_or_agree _ vm "max_snapshot_age_days"),
    (get_agree _ vm "guest_os"), (get_agree _ vm "tools_status"),
    (get_or_agree _ vm "nics"), (get_or_agree _ vm "avg_cpu_usage_pct"),
    (get_or_agree _ vm "uptime_days")
    by (apply lookup_insert_ne; discriminate).
  rewrite Hcpu. reflexivity.
Qed.

(** ** The risk level *)

(** X12: the risk level never goes down when the score goes up, and it is
    defined outside 0..100 as well: every score below 30, negative ones
    included, is Low, and every score of 70 or more is High. *)
Theorem risk_level_monotone a b :
  a <= b ->
  (risk_level a = "High" -> risk_level b = "High")
  /\ (risk_level b = "Low" -> risk_level a = "Low")
  /\ (risk_level a = "Low" <-> a <= 29)
  /\ (risk_level a = "High" <-> 70 <= a)
  /\ (risk_level a = "Low" \/ risk_level a = "Medium" \/ risk_level a = "High").
Proof.
  intros Hab. unfold risk_level.
  destruct (Z.leb_spec a 29), (Z.leb_spec a 69), (Z.leb_spec b 29),
    (Z.leb_spec b 69); try lia;
    repeat split; intros; try reflexivity; try discriminate; try lia; auto.
Qed.

(** ** The tags *)

(** X13: on a list of tags the extraction raises exactly when a tag that
    is not a string comes before every tag that starts with
    [powered_off_days=]; the error is then AttributeError, and in every
    other case a number is returned. *)
Theorem extraction_raises_on_early_non_string self ts e :
  _extract_powered_off_days self (VList ts) = Raise e <->
  e = AttributeError
  /\ exists pre t post,
       ts = (pre ++ t :: post)%list
       /\ Forall other_tag pre
       /\ is_str t = false.
Proof.
  unfold _extract_powered_off_days. simpl. split.
  - induction ts as [|t ts IH]; [discriminate|].
    destruct t as [| | | |u| |];
      try (intros [= <-]; split; [reflexivity|];
           eexists [], _, ts; repeat split; constructor).
    simpl. destruct (String.prefix "powered_off_days=" u) eqn:Hu;
      [discriminate|].
    intros He. destruct (IH He) as (-> & pre & t & post & -> & Hpre & Ht).
    split; [reflexivity|].
    exists (VStr u :: pre), t, post. repeat split; [|exact Ht].
    constructor; [exists u; auto | exact Hpre].
  - intros (-> & pre & t & post & -> & Hpre & Ht).
    induction Hpre as [|x pre Hx _ IH]; simpl app.
    + destruct t; try discriminate Ht; reflexivity.
    + now rewrite extract_other_tag.
Qed.

Lemma extract_characters s :
  extract_loop ((fun a => VStr (String a "")) <$> list_ascii_of_string s)
  = Ok 0.
Proof.
  induction s as [|a s IH]; [reflexivity|].
  cbn [list_ascii_of_string fmap list_fmap extract_loop].
  destruct (String.prefix "powered_off_days=" (String a "")) eqn:Hp;
    [|exact IH].
  apply prefix_split in Hp as [t Ht]. injection Ht as _ Ht.
  discriminate Ht.
Qed.

(** X14: a record without tags, with an empty list of tags, or whose tags
    are one string instead of a list of strings, is never matched by the
    zombie tier and is never classified retire, whatever the string
    says. *)
Theorem no_zombie_without_a_list_of_tags self vm :
  get_or vm "tags" (VList []) = VList []
  \/ (exists s, get_or vm "tags" (VList []) = VStr s) ->
  zombie_tier self vm = Ok None
  /\ forall d, classify self vm = Ok d -> category d <> "retire".
Proof.
  intros Ht.
  assert (zombie_tier self vm = Ok None) as Hz.
  { unfold zombie_tier, _extract_powered_off_days.
    destruct (eq_str _ _); [|reflexivity].
    destruct Ht as [-> | [s ->]]; [reflexivity|].
    simpl. now rewrite extract_characters. }
  split; [exact Hz|]. intros d Hd Hc.
  apply retire_by_zombie in Hd; [congruence | exact Hc].
Qed.

Lemma md_extract_loop ts : MdReport.extract_loop ts = extract_loop ts.
Proof. induction ts as [|t ts IH]; simpl; [|rewrite IH]; reflexivity. Qed.

(** X15: the report module extracts the days from the tags as the
    classifier does; so for every record classified retire the record is
    poweredOff and the report finds a day count above 60, the one that the
    reason prints. *)
Theorem report_finds_the_days_of_retired self vm :
  (forall tags,
     MdReport._extract_powered_off_days tags
     = _extract_powered_off_days self tags)
  /\ (forall d,
        classify self vm = Ok d ->
        category d = "retire" ->
        eq_str (get vm "power_state") "poweredOff" = true
        /\ exists n,
             MdReport._extract_powered_off_days (get_or vm "tags" (VList []))
             = Ok n
             /\ 60 < n
             /\ reason d = "Powered off for " +:+ pretty n +:+
                           " days; requires decommission").
Proof.
  assert (forall tags,
            MdReport._extract_powered_off_days tags
            = _extract_powered_off_days self tags) as Hsame.
  { intros tags. unfold MdReport._extract_powered_off_days,
      _extract_powered_off_days.
    destruct (py_iter tags); simpl; [apply md_extract_loop | reflexivity]. }
  split; [exact Hsame|].
  intros d Hd Hc. apply retire_by_zombie in Hd; [|exact Hc].
  apply zombie_tier_Some in Hd as [Hp (n & Hn & Hlt & ->)].
  split; [exact Hp|]. exists n. rewrite Hsame. auto.
Qed.

End Further.

Section Evaluator.
Context `{!Interp}.

(** ** The generic condition evaluator *)

Lemma get_insert d k v : get (<[k := v]> d) k = v.
Proof. unfold get. now rewrite lookup_insert_eq. Qed.

Lemma get_insert_ne d k k' v : k <> k' -> get (<[k := v]> d) k' = get d k'.
Proof. intros Hk. unfold get. now rewrite lookup_insert_ne. Qed.

Lemma get_value_hashable vm field :
  hashable field = true -> exists v, get_value vm field = Ok v.
Proof. destruct field; simpl; try discriminate; eauto. Qed.

(** X16: the four numeric operators of the generic evaluator never raise:
    for [gt], [gte], [lt] and [lte] on any field name that can be a key the
    evaluation returns, and it returns False when the field or the value
    does not convert to a float. *)
Theorem numeric_operators_never_raise vm cond op :
  hashable (get cond "field") = true ->
  get cond "op" = VStr op ->
  In op ["gt"; "gte"; "lt"; "lte"] ->
  exists vm_val b,
    get_value vm (get cond "field") = Ok vm_val
    /\ _eval_condition vm cond = Ok b
    /\ (forall e, py_float vm_val = Raise e -> b = false)
    /\ (forall e, py_float (get cond "value") = Raise e -> b = false).
Proof.
  intros Hh Hop Hin. destruct (get_value_hashable vm _ Hh) as [vm_val Hv].
  unfold _eval_condition. rewrite Hv, Hop. simpl.
  assert (forall test,
            (forall e, py_float vm_val = Raise e ->
                       float_test test vm_val (get cond "value") = false)
            /\ (forall e, py_float (get cond "value") = Raise e ->
                          float_test test vm_val (get cond "value") = false))
    as Hguard.
  { intros test. unfold float_test. split; intros e He.
    - now rewrite He.
    - destruct (py_float vm_val); simpl; [now rewrite He | reflexivity]. }
  exists vm_val.
  destruct Hin as [<- | [<- | [<- | [<- | []]]]]; simpl;
    eexists; (split; [reflexivity|]); (split; [reflexivity|]);
    apply Hguard.
Qed.


(** X18: [neq] is the negation of [eq] and [not_in] the negation of [in]:
    with the same field and value, the one returns True where the other
    returns False, and they raise the same errors. *)
Theorem neq_and_not_in_negate vm cond :
  _eval_condition vm (<["op" := VStr "neq"]> cond)
  = negated (_eval_condition vm (<["op" := VStr "eq"]> cond))
  /\ _eval_condition vm (<["op" := VStr "not_in"]> cond)
     = negated (_eval_condition vm (<["op" := VStr "in"]> cond)).
Proof.
  unfold _eval_condition.
  rewrite !get_insert, !(get_insert_ne _ "op" "field"),
    !(get_insert_ne _ "op" "value") by discriminate.
  destruct (get_value vm (get cond "field")) as [v|e]; simpl;
    [|split; reflexivity].
  split; [reflexivity|].
  destruct (py_in v (get cond "value")); reflexivity.
Qed.

Lemma contains_empty p : contains "" p = String.eqb p "".
Proof. destruct p; reflexivity. Qed.

(** X19: [contains] compares in lower case, so the case of the field and
    of the value does not matter; a field that is absent, None or empty
    counts as the empty string and contains only the empty value; a field
    that is true and is not a string raises AttributeError. *)
Theorem contains_ignores_case vm cond k t :
  get cond "field" = VStr k ->
  get cond "op" = VStr "contains" ->
  get cond "value" = VStr t ->
  (forall s s',
     vm !! k = Some (VStr s) -> lower s' = lower s ->
     _eval_condition (<[k := VStr s']> vm) cond = _eval_condition vm cond)
  /\ (forall t',
        lower t' = lower t ->
        _eval_condition vm (<["value" := VStr t']> cond)
        = _eval_condition vm cond)
  /\ (forall s,
        vm !! k = Some (VStr s) ->
        _eval_condition vm cond = Ok (contains (lower s) (lower t)))
  /\ (truthy (get vm k) = false ->
      _eval_condition vm cond = Ok (String.eqb (lower t) ""))
  /\ (truthy (get vm k) = true -> is_str (get vm k) = false ->
      _eval_condition vm cond = Raise AttributeError).
Proof.
  intros Hf Hop Hv.
  assert (forall s, method_lower (py_or (VStr s) (VStr "")) = Ok (lower s))
    as Hlow.
  { intros s. unfold py_or. simpl. destruct s; reflexivity. }
  assert (forall vm0 s, vm0 !! k = Some (VStr s) ->
            _eval_condition vm0 cond = Ok (contains (lower s) (lower t)))
    as Hstr.
  { intros vm0 s Hs. unfold _eval_condition. rewrite Hf, Hop, Hv. simpl.
    unfold get. rewrite Hs. simpl default. rewrite Hlow. reflexivity. }
  split; [|split; [|split; [|split]]].
  - intros s s' Hs Hl. rewrite (Hstr vm s Hs).
    rewrite (Hstr (<[k := VStr s']> vm) s') by apply lookup_insert_eq.
    now rewrite Hl.
  - intros t' Hl. unfold _eval_condition.
    rewrite get_insert, !(get_insert_ne _ "value") by discriminate.
    rewrite Hf, Hop, Hv. simpl. now rewrite Hl.
  - intros s Hs. now apply Hstr.
  - intros Ht. unfold _eval_condition. rewrite Hf, Hop, Hv. simpl.
    unfold py_or. rewrite Ht. cbn [method_lower lower mbind res_bind].
    now rewrite contains_empty.
  - intros Ht Hs. unfold _eval_condition. rewrite Hf, Hop, Hv. simpl.
    unfold py_or. rewrite Ht.
    destruct (get vm k); try discriminate Hs; reflexivity.
Qed.

End Evaluator.

Section Catalog.
Context `{!Interp}.

(** ** The rule catalog *)

(** X20: loading passes on the error of reading the file and, with PyYAML,
    the error of the YAML parser; without PyYAML every error of the JSON
    parser becomes a RuntimeError; and what loading returns is the list
    that the parser produced, unchanged. *)
Theorem load_rules_errors path :
  (forall e, read_text path = Raise e -> load_rules path = Raise e)
  /\ (forall text e,
        read_text path = Ok text -> _HAS_YAML = true ->
        yaml_safe_load text = Raise e -> load_rules path = Raise e)
  /\ (forall text e,
        read_text path = Ok text -> _HAS_YAML = false ->
        json_loads text = Raise e ->
        exists msg, load_rules path = Raise (RuntimeError msg))
  /\ (forall rs, load_rules path = Ok rs <-> parsed path (VList rs)).
Proof.
  unfold load_rules. split; [|split; [|split]].
  - intros e ->. reflexivity.
  - intros text e Ht Hy He. rewrite Ht. simpl. now rewrite Hy, He.
  - intros text e Ht Hy He. rewrite Ht. simpl. rewrite Hy, He. simpl. eauto.
  - intros rs. unfold parsed. split.
    + destruct (read_text path) as [text|]; simpl; [|discriminate].
      intros Hl. exists text. split; [reflexivity|].
      destruct _HAS_YAML.
      * destruct (yaml_safe_load text) as [d|]; simpl in Hl; [|discriminate].
        destruct d; try discriminate Hl. now injection Hl as ->.
      * destruct (json_loads text) as [d|]; simpl in Hl; [|discriminate].
        destruct d; try discriminate Hl. now injection Hl as ->.
    + intros (text & -> & Hd). simpl.
      destruct _HAS_YAML; rewrite Hd; reflexivity.
Qed.




End Catalog.

Section Ingestion.
Context `{!Pydantic}.

(** ** The VM model *)

Lemma lstrip_spec s :
  exists l,
    s = l +:+ lstrip s
    /\ Forall (fun a => is_whitespace a = true) (list_ascii_of_string l)
    /\ (forall a t, lstrip s = String a t -> is_whitespace a = false).
Proof.
  induction s as [|a s (l & Hl & Hws & Hfirst)]; simpl.
  - exists "". repeat split; [constructor | discriminate].
  - destruct (is_whitespace a) eqn:Ha.
    + exists (String a l). repeat split.
      * change (String a l +:+ lstrip s) with (String a (l +:+ lstrip s)).
        now rewrite <- Hl.
      * now constructor.
      * exact Hfirst.
    + exists "". repeat split; [constructor|].
      intros a' t [= <- _]. exact Ha.
Qed.

Lemma append_cons a s t : String a s +:+ t = String a (s +:+ t).
Proof. reflexivity. Qed.

Lemma append_snoc_nonempty t a : t +:+ String a "" <> "".
Proof. destruct t; discriminate. Qed.

Lemma rstrip_spec s :
  exists r,
    s = rstrip s +:+ r
    /\ Forall (fun a => is_whitespace a = true) (list_ascii_of_string r)
    /\ (forall t a, rstrip s = t +:+ String a "" -> is_whitespace a = false)
    /\ (forall a t, rstrip s = String a t -> exists t', s = String a t').
Proof.
  induction s as [|a s (r & Hr & Hws & Hlast & _)].
  - exists "". split; [reflexivity|]. split; [constructor|].
    split; [|discriminate].
    intros t a Ht. symmetry in Ht. now apply append_snoc_nonempty in Ht.
  - simpl rstrip. destruct (rstrip s) as [|b u] eqn:Hs.
    + change ("" +:+ r) with r in Hr. subst r.
      destruct (is_whitespace a) eqn:Ha.
      * exists (String a s). split; [reflexivity|].
        split; [now constructor|]. split; [|discriminate].
        intros t c Ht. symmetry in Ht. now apply append_snoc_nonempty in Ht.
      * exists s. split; [reflexivity|]. split; [exact Hws|].
        split; [|intros a0 t [= <- _]; eauto].
        intros [|b t] c Ht.
        -- injection Ht as <-. exact Ha.
        -- rewrite append_cons in Ht. injection Ht as _ Ht.
           symmetry in Ht. now apply append_snoc_nonempty in Ht.
    + exists r. split; [now rewrite append_cons, <- Hr|].
      split; [exact Hws|]. split; [|intros a0 t [= <- _]; eauto].
      intros [|c t] d Ht.
      * discriminate Ht.
      * rewrite append_cons in Ht. injection Ht as _ Ht.
        now apply (Hlast t d).
Qed.

(** The stripped string is the string without white space at its two
    ends, and nothing else is removed. *)
Lemma strip_spec s :
  exists l r,
    s = l +:+ strip s +:+ r
    /\ Forall (fun a => is_whitespace a = true) (list_ascii_of_string l)
    /\ Forall (fun a => is_whitespace a = true) (list_ascii_of_string r)
    /\ (forall a t, strip s = String a t -> is_whitespace a = false)
    /\ (forall t a, strip s = t +:+ String a "" -> is_whitespace a = false).
Proof.
  unfold strip.
  destruct (lstrip_spec s) as (l & Hl & Hlws & Hfirst).
  destruct (rstrip_spec (lstrip s)) as (r & Hr & Hrws & Hlast & Hhead).
  exists l, r. repeat split; try assumption.
  - now rewrite <- Hr.
  - intros a t Ht. destruct (Hhead a t Ht) as [t' Ht']. eauto.
Qed.

Lemma lstrip_fixed t :
  (forall a u, t = String a u -> is_whitespace a = false) -> lstrip t = t.
Proof.
  destruct t as [|a u]; [reflexivity|]. intros Hf. simpl.
  now rewrite (Hf a u eq_refl).
Qed.

Lemma rstrip_fixed t :
  (forall u a, t = u +:+ String a "" -> is_whitespace a = false) ->
  rstrip t = t.
Proof.
  induction t as [|a t IH]; [reflexivity|]. intros Hl. simpl.
  rewrite IH.
  - destruct t; [|reflexivity]. now rewrite (Hl "" a eq_refl).
  - intros u c ->. apply (Hl (String a u) c). reflexivity.
Qed.

Lemma strip_idempotent s : strip (strip s) = strip s.
Proof.
  destruct (strip_spec s) as (l & r & _ & _ & _ & Hfirst & Hlast).
  unfold strip at 1. rewrite (lstrip_fixed _ Hfirst).
  now apply rstrip_fixed.
Qed.

Lemma strip_field_lookup k k' data :
  strip_field k data !! k'
  = if decide (k = k') then stripped (data !! k) else data !! k'.
Proof.
  unfold strip_field, stripped.
  destruct (decide (k = k')) as [<-|Hne].
  - destruct (data !! k) as [[| | | |s| |]|] eqn:Hk; try exact Hk.
    apply lookup_insert_eq.
  - destruct (data !! k) as [[| | | |s| |]|]; try reflexivity.
    now apply lookup_insert_ne.
Qed.

(** X24: [VMModel] hands to the validation the data it was given, except
    that an identifier and a name that are strings are stripped: white
    space, and nothing else, is removed at their two ends, every other key
    and every value that is not a string is passed as it is, and building
    the model from data that went through this once changes nothing
    more. *)
Theorem VMModel_strips_identifier_and_name data :
  let data' := strip_field "name" (strip_field "vm_id" data) in
  VMModel_init data = BaseModel_init data'
  /\ (forall k, k <> "vm_id" -> k <> "name" -> data' !! k = data !! k)
  /\ data' !! "vm_id" = stripped (data !! "vm_id")
  /\ data' !! "name" = stripped (data !! "name")
  /\ (forall s, exists l r,
        s = l +:+ strip s +:+ r
        /\ Forall (fun a => is_whitespace a = true) (list_ascii_of_string l)
        /\ Forall (fun a => is_whitespace a = true) (list_ascii_of_string r)
        /\ (forall a t, strip s = String a t -> is_whitespace a = false)
        /\ (forall t a, strip s = t +:+ String a "" ->
                        is_whitespace a = false))
  /\ VMModel_init data' = VMModel_init data.
Proof.
  intros data'.
  assert (forall k, data' !! k
                    = if decide (k = "vm_id" \/ k = "name")
                      then stripped (data !! k) else data !! k) as Hlook.
  { intros k. subst data'. rewrite strip_field_lookup.
    destruct (decide ("name" = k)) as [Hn|Hn];
      rewrite strip_field_lookup.
    - destruct (decide ("vm_id" = "name")); [discriminate|].
      destruct (decide (k = "vm_id" \/ k = "name")) as [|Hk];
        [now subst | destruct Hk; auto].
    - destruct (decide ("vm_id" = k)) as [Hv|Hv];
        destruct (decide (k = "vm_id" \/ k = "name")) as [Hk|Hk];
        subst; try reflexivity.
      + destruct Hk; auto.
      + destruct Hk; congruence. }
  split; [reflexivity|]. split; [|split; [|split; [|split]]].
  - intros k Hv Hn. rewrite Hlook. destruct (decide _) as [Hk|]; [|reflexivity].
    destruct Hk; contradiction.
  - rewrite Hlook. destruct (decide _) as [|Hk]; [reflexivity|].
    destruct Hk; auto.
  - rewrite Hlook. destruct (decide _) as [|Hk]; [reflexivity|].
    destruct Hk; auto.
  - apply strip_spec.
  - unfold VMModel_init. f_equal. apply map_eq. intros k.
    fold data'. rewrite !strip_field_lookup.
    assert (forall o, stripped (stripped o) = stripped o) as Hidem.
    { intros [[| | | |s| |]|]; simpl; try reflexivity.
      now rewrite strip_idempotent. }
    rewrite !Hlook.
    repeat destruct (decide _); simplify_eq; try reflexivity;
      try apply Hidem; naive_solver.
Qed.

End Ingestion.

Section RoundTrip.
Context `{!Interp}.

(** ** Printing a day count and reading it back *)

Lemma digit_of_pretty_char d :
  (d < 10)%N ->
  digit_of (pretty_N_char d) = Some (Z.of_N d)
  /\ is_space (pretty_N_char d) = false
  /\ pretty_N_char d <> "+"%char
  /\ pretty_N_char d <> "-"%char.
Proof.
  intros Hd.
  assert (d = 0 \/ d = 1 \/ d = 2 \/ d = 3 \/ d = 4 \/ d = 5 \/ d = 6
          \/ d = 7 \/ d = 8 \/ d = 9)%N as Hcases by lia.
  repeat (destruct Hcases as [-> | Hcases];
          [repeat split; (reflexivity || discriminate)|]).
  subst d. repeat split; (reflexivity || discriminate).
Qed.

Ltac same_value tac :=
  match goal with
  | |- Some (?a, ?s) = Some (?b, ?s) =>
      apply (f_equal (fun z => Some (z, s))); tac
  | |- Some ?a = Some ?b => apply (f_equal Some); tac
  end.

(** A string of [k] digits of value [v], as [scan_digits] reads it. *)
Lemma scan_pretty_go x :
  forall s (k : nat) v,
    (forall acc, scan_digits s acc false = Some (acc * 10 ^ Z.of_nat k + v, "")) ->
    exists k' : nat,
      (forall acc,
         scan_digits (pretty_N_go x s) acc false
         = Some (acc * 10 ^ Z.of_nat k' + (Z.of_N x * 10 ^ Z.of_nat k + v), ""))
      /\ (x <> 0%N ->
          exists d r, (d < 10)%N /\ pretty_N_go x s = String (pretty_N_char d) r).
Proof.
  induction (N.lt_wf_0 x) as [x _ IH]. intros s k v Hs.
  destruct (N.eq_dec x 0%N) as [->|Hx].
  - exists k. rewrite pretty_N_go_0. split; [|congruence].
    intros acc. rewrite Hs. same_value lia.
  - assert (0 < x)%N as Hpos by lia.
    rewrite pretty_N_go_step by exact Hpos.
    assert (x `mod` 10 < 10)%N as Hd by (apply N.mod_lt; lia).
    destruct (digit_of_pretty_char _ Hd) as (Hdig & _).
    destruct (IH (x `div` 10)%N ltac:(apply N.div_lt; lia)
                (String (pretty_N_char (x `mod` 10)) s) (S k)
                (Z.of_N (x `mod` 10) * 10 ^ Z.of_nat k + v))
      as (k' & Hscan & Hhead).
    { intros acc. simpl scan_digits. rewrite Hdig, Hs.
      same_value ltac:(rewrite Nat2Z.inj_succ, Z.pow_succ_r by lia; ring). }
    exists k'. split.
    + intros acc. rewrite Hscan.
      assert (Z.of_N x
              = 10 * Z.of_N (x `div` 10)%N + Z.of_N (x `mod` 10)%N) as Hdm.
      { rewrite (N.div_mod x 10%N) at 1 by lia.
        rewrite N2Z.inj_add, N2Z.inj_mul. reflexivity. }
      same_value ltac:(rewrite Hdm, Nat2Z.inj_succ, Z.pow_succ_r by lia;
                       ring).
    + intros _. destruct (N.eq_dec (x `div` 10)%N 0%N) as [H0|H0].
      * rewrite H0, pretty_N_go_0. eauto.
      * apply Hhead, H0.
Qed.

Lemma parse_unsigned_pretty (x : N) :
  parse_unsigned (pretty x) = Some (Z.of_N x)
  /\ exists d r, (d < 10)%N /\ pretty x = String (pretty_N_char d) r.
Proof.
  unfold pretty, pretty_N. destruct (decide (x = 0%N)) as [->|Hx].
  - split; [reflexivity|]. exists 0%N, "". split; [lia | reflexivity].
  - destruct (scan_pretty_go x "" 0%nat 0) as (k' & Hscan & Hhead).
    { intros acc. simpl scan_digits.
      same_value ltac:(change (Z.of_nat 0) with 0; rewrite Z.pow_0_r; lia). }
    destruct (Hhead Hx) as (d & r & Hd & Hr). split; [|eauto].
    unfold parse_unsigned. rewrite Hr.
    destruct (digit_of_pretty_char d Hd) as (-> & _).
    rewrite <- Hr, Hscan. simpl skip_space. cbv iota beta.
    same_value ltac:(change (Z.of_nat 0) with 0; rewrite Z.pow_0_r; lia).
Qed.

Lemma parse_int_unsigned c r :
  is_space c = false -> c <> "+"%char -> c <> "-"%char ->
  parse_int (String c r) = parse_unsigned (String c r).
Proof.
  intros Hsp Hplus Hminus. unfold parse_int. simpl skip_space. rewrite Hsp.
  destruct c as [[] [] [] [] [] [] [] []]; try reflexivity; congruence.
Qed.

Lemma parse_int_pretty (n : Z) : parse_int (pretty n) = Some n.
Proof.
  assert (forall x : N, parse_int (pretty x) = Some (Z.of_N x)) as HN.
  { intros x. destruct (parse_unsigned_pretty x) as (Hp & d & r & Hd & Hr).
    destruct (digit_of_pretty_char d Hd) as (_ & Hsp & Hplus & Hminus).
    rewrite Hr in Hp |- *. now rewrite parse_int_unsigned. }
  destruct n as [|p|p].
  - reflexivity.
  - apply (HN (Npos p)).
  - destruct (parse_unsigned_pretty (Npos p)) as (Hp & _).
    change (pretty (Z.neg p)) with (String "-" (pretty (Npos p))).
    unfold parse_int. simpl skip_space. cbv iota beta.
    now rewrite Hp.
Qed.

Lemma count_digits_length s : (count_digits s <= String.length s)%nat.
Proof.
  induction s as [|a s IH]; simpl; [lia|]. destruct (is_digit a); lia.
Qed.

(** The print of an integer of at most 640 digits is read back under
    every limit. *)
Lemma int_with_limit_pretty limit n :
  small_int n = true -> int_with_limit limit (pretty n) = Some n.
Proof.
  intros Hn. unfold int_with_limit. rewrite parse_int_pretty.
  rewrite exceeds_limit_small; [reflexivity|].
  pose proof (small_int_length n Hn) as Hl.
  destruct n as [|p|p].
  - simpl. lia.
  - etrans; [apply count_digits_length | exact Hl].
  - change (pretty (Z.neg p)) with (String "-" (pretty (Npos p))).
    change (count_digits (String "-" (pretty (Npos p))))
      with (count_digits (pretty (Npos p))).
    etrans; [apply count_digits_length | exact Hl].
Qed.

(** X25: a day count of at most 640 digits written into a tag is read
    back: for every such integer [n], [int] of the decimal print of [n] is
    [n], under every limit of the interpreter on the digits of an integer,
    and the extraction returns [n] for tags whose first keyed tag is
    [powered_off_days=] followed by that print; so with [n] above 60 a
    poweredOff record with such tags is classified retire, with [n] in the
    reason. *)
Theorem days_tag_round_trip self n pre post :
  small_int n = true ->
  Forall other_tag pre ->
  py_int (pretty n) = Ok n
  /\ (forall limit, int_with_limit limit (pretty n) = Some n)
  /\ _extract_powered_off_days self
       (VList (pre ++ VStr ("powered_off_days=" +:+ pretty n) :: post))
     = Ok n
  /\ (forall vm,
        eq_str (get vm "power_state") "poweredOff" = true ->
        get_or vm "tags" (VList [])
        = VList (pre ++ VStr ("powered_off_days=" +:+ pretty n) :: post) ->
        60 < n ->
        classify self vm
        = Ok ("retire", "high", "zombie-detection",
              "Powered off for " +:+ pretty n +:+
              " days; requires decommission")).
Proof.
  intros Hsmall Hpre.
  assert (_extract_powered_off_days self
            (VList (pre ++ VStr ("powered_off_days=" +:+ pretty n) :: post))
          = Ok n) as He.
  { apply extract_iter. eexists. split; [reflexivity|].
    rewrite (extract_first_tag _ (pretty n)) by now exists pre, post.
    unfold days_of. now rewrite parse_int_pretty. }
  split; [|split; [|split; [exact He|]]].
  - unfold py_int. now rewrite parse_int_pretty.
  - intros limit. now apply int_with_limit_pretty.
  - intros vm Hp Ht Hn.
    apply classify_decided_by, by_zombie, zombie_tier_Some.
    split; [exact Hp|]. exists n. rewrite Ht. auto.
Qed.

(** ** When scoring returns *)

(** X26: scoring returns exactly when the snapshot count, the snapshot
    age, the NIC count, the CPU usage and the uptime are numbers or
    absent, the guest OS is a string or is false, and the memory usage is
    a number or absent unless the CPU usage is above 80; it raises in
    every other case. *)
Theorem score_returns_iff vm :
  (exists score trace, score_vm vm = Ok (score, trace)) <->
  is_number (get_or vm "snapshot_count" (VInt 0)) = true
  /\ is_number (get_or vm "max_snapshot_age_days" (VInt 0)) = true
  /\ (is_str (get vm "guest_os") = true \/ truthy (get vm "guest_os") = false)
  /\ is_number (get_or vm "nics" (VInt 0)) = true
  /\ is_number (get_or vm "avg_cpu_usage_pct" (VInt 0)) = true
  /\ (py_gt (get_or vm "avg_cpu_usage_pct" (VInt 0)) 80 = Ok true
      \/ is_number (get_or vm "avg_mem_usage_pct" (VInt 0)) = true)
  /\ is_number (get_or vm "uptime_days" (VInt 0)) = true.
Proof.
  split.
  - intros (score & trace & Hs).
    apply score_vm_Ok in Hs as (raw & Hr & _).
    apply raw_score_Ok in Hr
      as (b1 & b2 & g & b5 & b6 & b7 & H1 & H2 & Hg & H5 & H6 & H7 & _).
    repeat split; eauto using py_gt_Ok.
    + unfold guest_os_lower, py_or in Hg.
      destruct (truthy (get vm "guest_os")) eqn:Ht; [left | now right].
      destruct (get vm "guest_os"); try discriminate Hg; reflexivity.
    + destruct (py_gt (get_or vm "avg_cpu_usage_pct" _) 80) eqn:Hc;
        [eauto using py_gt_Ok | discriminate H6].
    + destruct (py_gt (get_or vm "avg_cpu_usage_pct" _) 80) as [[|]|] eqn:Hc;
        [now left | right | discriminate H6].
      simpl in H6. eauto using py_gt_Ok.
  - intros (H1 & H2 & Hg & H5 & Hc & Hm & H7).
    unfold score_vm, raw_score.
    destruct (py_gt_number _ 5 H1) as [b1 ->].
    destruct (py_gt_number _ 30 H2) as [b2 ->].
    destruct (py_gt_number _ 3 H5) as [b5 ->].
    destruct (py_gt_number _ 365 H7) as [b7 ->].
    assert (exists g, method_lower (py_or (get vm "guest_os") (VStr ""))
                      = Ok g) as [g ->].
    { unfold py_or. destruct Hg as [Hg | Hg].
      - destruct (get vm "guest_os"); try discriminate Hg.
        destruct (truthy _); simpl; eauto.
      - rewrite Hg. simpl. eauto. }
    assert (exists b6,
              (a ← py_gt (get_or vm "avg_cpu_usage_pct" (VInt 0)) 80;
               or_else a (py_gt (get_or vm "avg_mem_usage_pct" (VInt 0)) 80))
              = Ok b6) as [b6 ->].
    { destruct Hm as [-> | Hm]; [simpl; eauto|].
      destruct (py_gt_number _ 80 Hc) as [a ->].
      destruct (py_gt_number _ 80 Hm) as [m ->].
      destruct a; simpl; eauto. }
    simpl. destruct (signal _ _ _ _). simpl. eauto.
Qed.

End RoundTrip.

(** * The further statements at the sample data *)


Lemma legacy_os_decides_before_numbers_witness :
  classify (H := sample_interp) sample_engine legacy_malformed_vm
  = Ok ("keep", "high", "legacy-os-detection",
        "Windows Server 2008 legacy OS requires on-premises infrastructure").
Proof.
  apply (legacy_os_decides_before_numbers (H := sample_interp)
           sample_engine legacy_malformed_vm "windows server 2008 r2"
           eq_refl eq_refl eq_refl).
Defined.

Lemma guest_os_absent_or_not_a_string_witness :
  truthy (get (vm_with [("guest_os", VNone)]) "guest_os") = false
  /\ guest_os_lower (vm_with [("guest_os", VNone)]) = Ok "".
Proof.
  split; [reflexivity|].
  apply (proj1 (guest_os_absent_or_not_a_string (H := sample_interp)
                  sample_engine (vm_with [("guest_os", VNone)]))).
  reflexivity.
Defined.

Lemma refactor_tier_reads_usage_last_witness :
  exists c1 c2,
    py_le (get_or windows_vm "nics" (VInt 1)) 1 = Ok c1
    /\ py_le (get_or windows_vm "disk_gb" (VInt 0)) 100 = Ok c2
    /\ (is_linux "windows server 2019" && c1 && c2 = false ->
        classify (H := sample_interp) sample_engine windows_vm
        = Ok default_decision)
    /\ (is_linux "windows server 2019" && c1 && c2 = true ->
        forallb (fun k => is_number (get_or windows_vm k (VInt 0)))
          ["avg_cpu_usage_pct"; "avg_mem_usage_pct"; "uptime_days"] = false ->
        classify (H := sample_interp) sample_engine windows_vm
        = Raise TypeError).
Proof.
  apply (refactor_tier_reads_usage_last (H := sample_interp)
           sample_engine windows_vm "windows server 2019"
           eq_refl eq_refl eq_refl eq_refl).
Defined.

Lemma trace_accounts_for_score_witness :
  score_vm all_signals_vm
  = Ok (100, ["snapshot_count>5:+20"; "max_snapshot_age_days>30:+15";
              "guest_os_legacy:+25"; "tools_status_not_running:+10";
              "nics>3:+10"; "high_avg_usage:+15"; "uptime_days>365:+10"])
  /\ 100 = Z.min 100 105.
Proof.
  split; [reflexivity|].
  apply (trace_accounts_for_score all_signals_vm 100 _ eq_refl).
Defined.

Lemma risk_level_by_number_of_signals_witness :
  score_vm plain_vm = Ok (0, [])
  /\ risk_level 0 = "Low".
Proof.
  split; [reflexivity|].
  apply (proj1 (proj2 (risk_level_by_number_of_signals plain_vm 0 []
                         eq_refl))).
  simpl. lia.
Defined.

Lemma refactor_candidate_scores_low_witness :
  classify (H := sample_interp) sample_engine plain_vm
  = Ok ("refactor_candidate", "medium", "conservative-refactor",
        "Linux; low risk profile; single NIC; small disk; eligible for containerization")
  /\ score_vm plain_vm = Ok (0, [])
  /\ risk_level 0 = "Low".
Proof.
  split; [reflexivity|]. split; [reflexivity|].
  apply (refactor_candidate_scores_low (H := sample_interp)
           sample_engine plain_vm _ 0 [] eq_refl eq_refl eq_refl).
Defined.

Lemma legacy_decision_iff_legacy_signal_witness :
  zombie_tier sample_engine legacy_vm = Ok None
  /\ classify (H := sample_interp) sample_engine legacy_vm
     = Ok ("keep", "high", "legacy-os-detection",
           "Windows Server 2008 legacy OS requires on-premises infrastructure")
  /\ score_vm legacy_vm
     = Ok (35, ["guest_os_legacy:+25"; "uptime_days>365:+10"])
  /\ 25 <= 35.
Proof.
  split; [reflexivity|]. split; [reflexivity|]. split; [reflexivity|].
  apply (proj2 (legacy_decision_iff_legacy_signal (H := sample_interp)
                  sample_engine legacy_vm
                  ("keep", "high", "legacy-os-detection",
                   "Windows Server 2008 legacy OS requires on-premises infrastructure")
                  35 _ eq_refl eq_refl eq_refl)).
  reflexivity.
Defined.

Lemma score_reads_eight_fields_witness :
  agree_on score_fields plain_vm powered_off_vm
  /\ score_vm plain_vm = score_vm powered_off_vm.
Proof.
  assert (agree_on score_fields plain_vm powered_off_vm) as Ha.
  { intros k Hk. simpl in Hk.
    repeat (destruct Hk as [<- | Hk]; [reflexivity|]). destruct Hk. }
  split; [exact Ha|].
  apply (score_reads_eight_fields plain_vm powered_off_vm Ha).
Defined.

Lemma classify_reads_nine_fields_and_tags_witness :
  agree_on classify_fields plain_vm padded_item
  /\ classify (H := sample_interp) sample_engine plain_vm
     = classify (H := sample_interp) sample_engine padded_item.
Proof.
  assert (agree_on classify_fields plain_vm padded_item) as Ha.
  { intros k Hk. simpl in Hk.
    repeat (destruct Hk as [<- | Hk]; [reflexivity|]). destruct Hk. }
  split; [exact Ha|].
  apply (classify_reads_nine_fields_and_tags (H := sample_interp)
           sample_engine plain_vm padded_item Ha).
  discriminate.
Defined.

Lemma score_skips_memory_when_cpu_is_high_witness :
  score_vm busy_vm = Ok (15, ["high_avg_usage:+15"]).
Proof.
  change busy_vm
    with (<["avg_mem_usage_pct" := VStr "n/a"]>
            (vm_with [("avg_cpu_usage_pct", VInt 90)])).
  rewrite (score_skips_memory_when_cpu_is_high
             (vm_with [("avg_cpu_usage_pct", VInt 90)]) (VStr "n/a") eq_refl).
  reflexivity.
Defined.

Lemma risk_level_monotone_witness :
  29 <= 70 /\ (risk_level 70 = "Low" -> risk_level 29 = "Low").
Proof.
  assert (29 <= 70) as Hab by lia.
  split; [exact Hab|].
  apply (proj1 (proj2 (risk_level_monotone 29 70 Hab))).
Defined.

Lemma extraction_raises_on_early_non_string_witness :
  _extract_powered_off_days sample_engine
    (VList [VStr "env=prod"; VInt 5; VStr "powered_off_days=120"])
  = Raise AttributeError.
Proof.
  apply (proj2 (extraction_raises_on_early_non_string sample_engine
                  [VStr "env=prod"; VInt 5; VStr "powered_off_days=120"]
                  AttributeError)).
  split; [reflexivity|].
  exists [VStr "env=prod"], (VInt 5), [VStr "powered_off_days=120"].
  split; [reflexivity|]. split; [|reflexivity].
  repeat constructor. exists "env=prod". split; reflexivity.
Defined.

Lemma no_zombie_without_a_list_of_tags_witness :
  get_or string_tags_vm "tags" (VList []) = VStr "powered_off_days=120"
  /\ zombie_tier sample_engine string_tags_vm = Ok None.
Proof.
  split; [reflexivity|].
  apply (no_zombie_without_a_list_of_tags (H := sample_interp)
           sample_engine string_tags_vm).
  right. exists "powered_off_days=120". reflexivity.
Defined.

Lemma report_finds_the_days_of_retired_witness :
  eq_str (get zombie_vm "power_state") "poweredOff" = true
  /\ exists n,
       MdReport._extract_powered_off_days (get_or zombie_vm "tags" (VList []))
       = Ok n
       /\ 60 < n
       /\ "Powered off for 120 days; requires decommission"
          = "Powered off for " +:+ pretty n +:+ " days; requires decommission".
Proof.
  apply (proj2 (report_finds_the_days_of_retired (H := sample_interp)
                  sample_engine zombie_vm)
           ("retire", "high", "zombie-detection",
            "Powered off for 120 days; requires decommission")
           eq_refl eq_refl).
Defined.

Lemma numeric_operators_never_raise_witness :
  exists vm_val b,
    get_value malformed_vm (get snapshot_cond "field") = Ok vm_val
    /\ _eval_condition (H := sample_interp) malformed_vm snapshot_cond = Ok b
    /\ (forall e, py_float (Interp := sample_interp) vm_val = Raise e ->
                  b = false)
    /\ (forall e, py_float (Interp := sample_interp)
                    (get snapshot_cond "value") = Raise e -> b = false).
Proof.
  apply (numeric_operators_never_raise (H := sample_interp)
           malformed_vm snapshot_cond "gt" eq_refl eq_refl).
  left. reflexivity.
Defined.


Lemma contains_ignores_case_witness :
  _eval_condition (H := sample_interp) plain_vm os_cond = Ok true.
Proof.
  apply (proj1 (proj2 (proj2 (contains_ignores_case (H := sample_interp)
                                plain_vm os_cond "guest_os" "UBUNTU"
                                eq_refl eq_refl eq_refl)))
           "Ubuntu 20.04" eq_refl).
Defined.

Lemma load_rules_errors_witness :
  load_rules (H := sample_interp) "missing.yaml" = Raise OSError.
Proof.
  apply (proj1 (load_rules_errors (H := sample_interp) "missing.yaml")
           OSError eq_refl).
Defined.




Lemma VMModel_strips_identifier_and_name_witness :
  VMModel_init (H := sample_pydantic) padded_item
  = Ok (<["vm_id" := VStr "vm-001"]> (<["name" := VStr "web 01"]> plain_vm)).
Proof.
  rewrite (proj1 (VMModel_strips_identifier_and_name
                    (H := sample_pydantic) padded_item)).
  vm_compute. reflexivity.
Defined.

(** The limit on the digits of an integer: 4300 digits pass the default
    limit and 4301 do not, and nothing is refused when the limit is 0. *)
Example exceeds_limit_at_default :
  exceeds_limit 4300 4300 = false
  /\ exceeds_limit 4300 4301 = true
  /\ exceeds_limit 0 4301 = false.
Proof. repeat split. Qed.

Lemma days_tag_round_trip_witness :
  small_int 90 = true
  /\ Forall other_tag [VStr "env=prod"]
  /\ _extract_powered_off_days sample_engine
       (VList [VStr "env=prod"; VStr "powered_off_days=90"; VInt 5])
     = Ok 90.
Proof.
  assert (Forall other_tag [VStr "env=prod"]) as Hpre.
  { repeat constructor. exists "env=prod". split; reflexivity. }
  split; [reflexivity|]. split; [exact Hpre|].
  apply (proj1 (proj2 (proj2 (days_tag_round_trip (H := sample_interp)
                                sample_engine 90 [VStr "env=prod"] [VInt 5]
                                eq_refl Hpre)))).
Defined.

Lemma score_returns_iff_witness :
  exists score trace, score_vm busy_vm = Ok (score, trace).
Proof.
  apply (proj2 (score_returns_iff busy_vm)).
  repeat split; try reflexivity; [left | left]; reflexivity.
Defined.
